(** * b-con: report completion pollers and the invoice parser

    A shallow embedding of three handlers of the b-con pipeline,

      - [handlers/invoice_handler.py]  (the invoice state-machine parser),
      - [handlers/cm_handler.py]       (the Campaign Manager report poller),
      - [handlers/dv360_handler.py]    (the DV360 report pollers),

    followed by theorems that settle the specification's claims about them.

    Conventions of the embedding.
      - A Python [str] is a [string] holding its UTF-8 bytes.  [str.lower]
        and [str.strip] are modelled on the ASCII range; the handlers only
        compare lowered text with the ASCII words [product] and [gst], and no
        character outside ASCII lowers to one of their letters.
      - A [dict] with string keys is a [gmap string _]; [d.update(e)] is the
        left-biased union [e ∪ d].
      - A raised exception is the [Raise] constructor of [result]; code that
        runs in a [while True] loop against the outside world takes fuel and
        answers with an [outcome], whose third constructor means that the
        loop is still polling when the fuel is spent. *)

From Stdlib Require Import ZArith Lia Ascii String.
From stdpp Require Import base option list gmap strings.

Local Open Scope string_scope.
Local Open Scope Z_scope.

(* ===================================================================== *)
(** * Python runtime: exceptions, results, sequences and strings          *)
(* ===================================================================== *)

Module Py.

(** The exception classes the three handlers can raise: Python built-ins
    first, then the classes the handlers declare themselves. *)
Inductive exn : Type :=
  | IndexError
  | KeyError (arg : string)
  | TypeError
  | ValueError
  | NameError (name : string)
  | UnboundLocalError (name : string)
  | ProductNotFoundError (msg : string)      (* invoice_handler *)
  | IncorrectProductError (msg : string)     (* invoice_handler *)
  | ReportError                              (* dv360_handler *)
  | ReportRunError                           (* cm_handler *)
  | ReportRunDeadlineExceeded.               (* cm_handler *)

Inductive result (A : Type) : Type :=
  | Ok (a : A)
  | Raise (e : exn).
Arguments Ok {A} a.
Arguments Raise {A} e.

#[global] Instance result_ret : MRet result := fun A a => Ok a.
#[global] Instance result_bind : MBind result := fun A B f m =>
  match m with
  | Ok a => f a
  | Raise e => Raise e
  end.

(** [seq[i]] for a non-negative literal index. *)
Definition getitem {A : Type} (l : list A) (i : nat) : result A :=
  match l !! i with
  | Some x => Ok x
  | None => Raise IndexError
  end.

(** [seq[-1]]. *)
Definition getitem_last {A : Type} (l : list A) : result A :=
  match last l with
  | Some x => Ok x
  | None => Raise IndexError
  end.

(** [d[k]] on a dict. *)
Definition dict_getitem {V : Type} (d : gmap string V) (k : string) : result V :=
  match d !! k with
  | Some v => Ok v
  | None => Raise (KeyError k)
  end.

(** [dict(pairs)]: pairs are inserted left to right, a later duplicate key
    overwrites an earlier one. *)
Definition dict_of_pairs {V : Type} (kvs : list (string * V)) : gmap string V :=
  foldl (fun m kv => <[kv.1 := kv.2]> m) ∅ kvs.

(** [zip(a, b)] stops at the shorter argument. *)
Fixpoint zip {A B : Type} (a : list A) (b : list B) : list (A * B) :=
  match a, b with
  | x :: a', y :: b' => (x, y) :: zip a' b'
  | _, _ => []
  end.

(** Truthiness of a [str] and of a [list]. *)
Definition str_truthy (s : string) : bool :=
  match s with EmptyString => false | String _ _ => true end.

Definition list_truthy {A : Type} (l : list A) : bool :=
  match l with [] => false | _ :: _ => true end.

Definition chr (n : nat) : ascii := ascii_of_nat n.

Definition LF : string := String (chr 10) EmptyString.

(** [str.lower()], ASCII range. *)
Definition lower_char (c : ascii) : ascii :=
  let n := nat_of_ascii c in
  if ((65 <=? n) && (n <=? 90))%nat then ascii_of_nat (n + 32) else c.

Fixpoint lower (s : string) : string :=
  match s with
  | EmptyString => EmptyString
  | String c s' => String (lower_char c) (lower s')
  end.

(** [needle in hay] on strings. *)
Fixpoint contains (needle hay : string) : bool :=
  String.prefix needle hay ||
  match hay with
  | EmptyString => false
  | String _ hay' => contains needle hay'
  end.

(** The characters [str.strip()] removes, ASCII range: TAB, LF, VT, FF, CR,
    FS, GS, RS, US and the space. *)
Definition is_space (c : ascii) : bool :=
  let n := nat_of_ascii c in
  (((9 <=? n) && (n <=? 13)) || ((28 <=? n) && (n <=? 32)))%nat.

Fixpoint lstrip (s : string) : string :=
  match s with
  | EmptyString => EmptyString
  | String c s' => if is_space c then lstrip s' else s
  end.

Fixpoint rstrip (s : string) : string :=
  match s with
  | EmptyString => EmptyString
  | String c s' =>
      match rstrip s' with
      | EmptyString => if is_space c then EmptyString else String c EmptyString
      | t => String c t
      end
  end.

Definition strip (s : string) : string := rstrip (lstrip s).

(** U+FEFF in UTF-8. *)
Definition BOM : string :=
  String (chr 239) (String (chr 187) (String (chr 191) EmptyString)).

(** [s.replace(U+FEFF, '')]: every occurrence of the mark is dropped. *)
Fixpoint replace_bom (s : string) : string :=
  match s with
  | EmptyString => EmptyString
  | String a s' =>
      match s' with
      | String b (String c rest) =>
          if String.eqb (String a (String b (String c EmptyString))) BOM
          then replace_bom rest
          else String a (replace_bom s')
      | _ => s
      end
  end.

(** [str.splitlines()].  A line ends at LF, VT, FF, FS, GS, RS, at CR or
    CR LF, and at U+0085, U+2028, U+2029 (here in their UTF-8 bytes); the
    boundary is dropped and a final boundary opens no further line. *)
Definition is_line_boundary (c : ascii) : bool :=
  let n := nat_of_ascii c in
  (((10 <=? n) && (n <=? 12)) || ((28 <=? n) && (n <=? 30)))%nat.

Fixpoint splitlines_from (cur : string) (s : string) : list string :=
  match s with
  | EmptyString =>
      match cur with EmptyString => [] | _ => [cur] end
  | String c s' =>
      let keep := splitlines_from (cur +:+ String c EmptyString) s' in
      if is_line_boundary c then cur :: splitlines_from EmptyString s'
      else match nat_of_ascii c, s' with
           | 13%nat, String d s'' =>
               if Ascii.eqb d (chr 10) then cur :: splitlines_from EmptyString s''
               else cur :: splitlines_from EmptyString s'
           | 13%nat, EmptyString => [cur]
           | 194%nat, String d s'' =>
               if Ascii.eqb d (chr 133) then cur :: splitlines_from EmptyString s''
               else keep
           | 226%nat, String d (String e s'') =>
               if Ascii.eqb d (chr 128) &&
                  (Ascii.eqb e (chr 168) || Ascii.eqb e (chr 169))
               then cur :: splitlines_from EmptyString s''
               else keep
           | _, _ => keep
           end
  end.

Definition splitlines (s : string) : list string := splitlines_from EmptyString s.

(** [re.search] for the pattern of [read_gst] (an opening parenthesis, a
    greedy dot-star group, a closing parenthesis), group 1.  The match
    starts at the leftmost opening parenthesis that is followed, before any
    line feed, by a closing one; the group is greedy, so it runs to the last
    such closing parenthesis.  [None] when there is no match. *)
Fixpoint greedy_upto_close (s : string) : option string :=
  match s with
  | EmptyString => None
  | String c s' =>
      if Ascii.eqb c (chr 10) then None
      else match greedy_upto_close s' with
           | Some g => Some (String c g)
           | None => if Ascii.eqb c ")" then Some EmptyString else None
           end
  end.

Fixpoint re_search_parens (s : string) : option string :=
  match s with
  | EmptyString => None
  | String c s' =>
      if Ascii.eqb c "("
      then match greedy_upto_close s' with
           | Some g => Some g
           | None => re_search_parens s'
           end
      else re_search_parens s'
  end.

End Py.

(* ===================================================================== *)
(** * The [csv] reader of the standard library, default dialect           *)
(* ===================================================================== *)

(** [csv.reader(lines)] with the default [excel] dialect: delimiter [,],
    the double quote as quote character, doubled inside a quoted field, no escape
    character, not strict.  The lines come from [str.splitlines], so they
    hold no CR and no LF, and the reader's treatment of embedded line ends
    is left out; so is its limit on the size of one field. *)
Module Csv.
Import Py.

Inductive parser_state : Type :=
  | START_RECORD
  | START_FIELD
  | IN_FIELD
  | IN_QUOTED_FIELD
  | QUOTE_IN_QUOTED_FIELD.

Record reader : Type := MkReader {
  state : parser_state;
  field : string;            (* the field being collected *)
  fields : list string       (* the fields already saved of this record *)
}.

Definition parse_reset : reader := MkReader START_RECORD EmptyString [].

Definition parse_save_field (r : reader) (next : parser_state) : reader :=
  MkReader next EmptyString (fields r ++ [field r])%list.

Definition parse_add_char (r : reader) (c : ascii) (next : parser_state) : reader :=
  MkReader next (field r +:+ String c EmptyString) (fields r).

Definition is_delimiter (c : ascii) : bool := Ascii.eqb c ",".
Definition is_quotechar (c : ascii) : bool := Ascii.eqb c (chr 34).

(** One step of the reader; [None] is the end-of-line marker that follows
    the last character of every line. *)
Definition parse_process_char (r : reader) (c : option ascii) : reader :=
  let start_field :=
    match c with
    | None => parse_save_field r START_RECORD
    | Some ch =>
        if is_quotechar ch then MkReader IN_QUOTED_FIELD (field r) (fields r)
        else if is_delimiter ch then parse_save_field r START_FIELD
        else parse_add_char r ch IN_FIELD
    end in
  match state r with
  | START_RECORD =>
      match c with
      | None => r
      | Some _ => start_field
      end
  | START_FIELD => start_field
  | IN_FIELD =>
      match c with
      | None => parse_save_field r START_RECORD
      | Some ch =>
          if is_delimiter ch then parse_save_field r START_FIELD
          else parse_add_char r ch IN_FIELD
      end
  | IN_QUOTED_FIELD =>
      match c with
      | None => r
      | Some ch =>
          if is_quotechar ch then MkReader QUOTE_IN_QUOTED_FIELD (field r) (fields r)
          else parse_add_char r ch IN_QUOTED_FIELD
      end
  | QUOTE_IN_QUOTED_FIELD =>
      match c with
      | None => parse_save_field r START_RECORD
      | Some ch =>
          if is_quotechar ch then parse_add_char r ch IN_QUOTED_FIELD
          else if is_delimiter ch then parse_save_field r START_FIELD
          else parse_add_char r ch IN_FIELD
      end
  end.

Fixpoint parse_line (r : reader) (line : string) : reader :=
  match line with
  | EmptyString => parse_process_char r None
  | String c line' => parse_line (parse_process_char r (Some c)) line'
  end.

(** The rows the reader yields.  A record is complete when the state is
    back at [START_RECORD] after a line; an open quoted field carries over
    to the next line, and is closed by the end of the input. *)
Fixpoint rows_from (r : reader) (lines : list string) : list (list string) :=
  match lines with
  | [] =>
      let open_quote :=
        match state r with IN_QUOTED_FIELD => true | _ => false end in
      if open_quote || str_truthy (field r) then [(fields r ++ [field r])%list] else []
  | line :: lines' =>
      let r' := parse_line r line in
      match state r' with
      | START_RECORD => fields r' :: rows_from parse_reset lines'
      | _ => rows_from r' lines'
      end
  end.

Definition reader_rows (lines : list string) : list (list string) :=
  rows_from parse_reset lines.

End Csv.

(* ===================================================================== *)
(** * handlers/invoice_handler.py                                         *)
(* ===================================================================== *)

Module invoice_handler.
Import Py.

Definition SUPPORTED_PRODUCTS : list string :=
  [ "Display and Video 360"; "Campaign Manager"; "DoubleClick Campaign Manager" ].

(** State machine to decide which part of the invoice we're parsing. *)
Inductive State : Type :=
  | READ_HEADER
  | READ_PRODUCT
  | READ_ENTRIES
  | READ_GST.

Definition State_eqb (a b : State) : bool :=
  match a, b with
  | READ_HEADER, READ_HEADER | READ_PRODUCT, READ_PRODUCT
  | READ_ENTRIES, READ_ENTRIES | READ_GST, READ_GST => true
  | _, _ => false
  end.

(** Each header entry is a key value pair. *)
Definition read_header (row : list string) : result (gmap string string) :=
  k ← getitem row 0;
  v ← getitem row 1;
  Ok {[ replace_bom k := v ]}.

(** The body both GST branches of [read_gst] share, for the column [col]
    that mentions GST. *)
Definition gst_fields (row : list string) (col : string) : result (gmap string string) :=
  match re_search_parens col with
  | None => Raise TypeError            (* [None[1]] *)
  | Some gst_pct =>
      gst_val ← getitem_last row;
      Ok (<[ "gst_val" := gst_val ]> {[ "gst_pct" := gst_pct ]})
  end.

(** Read the GST row. *)
Definition read_gst (row : list string) : result (gmap string string) :=
  r0 ← getitem row 0;
  if str_truthy r0 then Ok ∅
  else
    r2 ← getitem row 2;
    if contains "gst" (lower r2) then gst_fields row r2
    else
      r3 ← getitem row 3;
      if contains "gst" (lower r3) then gst_fields row r3
      else Ok ∅.

Definition read_entries (invoice_number : string) (rows : list (list string))
  : result (list (gmap string string)) :=
  header ← getitem rows 0;
  let entries := drop 1 rows in
  let all_entries := (fun e => dict_of_pairs (zip header (strip <$> e))) <$> entries in
  Ok ((fun e => {[ "Invoice number" := invoice_number ]} ∪ e) <$> all_entries).

(** The variables the [for] loop of [read] carries from row to row. *)
Record Locals : Type := MkLocals {
  state : State;
  invoice_header : gmap string string;
  invoice_entries : list (list string)
}.

Definition initial : Locals := MkLocals READ_HEADER ∅ [].

(** The body of the [for row in reader] loop of [read]. *)
Definition read_row (l : Locals) (row : list string) : result Locals :=
  (* Manage state transition. *)
  if negb (list_truthy row) && State_eqb (state l) READ_HEADER then
    Ok (MkLocals READ_PRODUCT (invoice_header l) (invoice_entries l))
  else if negb (list_truthy row) && State_eqb (state l) READ_PRODUCT then
    Ok (MkLocals READ_ENTRIES (invoice_header l) (invoice_entries l))
  else
    r0 ← getitem row 0;
    let state :=
      if negb (str_truthy r0) && State_eqb (state l) READ_ENTRIES
      then READ_GST else state l in
    (* End state transition. *)
    match state with
    | READ_HEADER =>
        h ← read_header row;
        Ok (MkLocals state (h ∪ invoice_header l) (invoice_entries l))
    | READ_PRODUCT =>
        if negb (list_truthy row) || negb (String.eqb (lower r0) "product")
        then Raise (ProductNotFoundError "Product row not found")
        else
          h ← read_header row;
          let invoice_header := h ∪ invoice_header l in
          product ← dict_getitem invoice_header "Product";
          if negb (bool_decide (product ∈ SUPPORTED_PRODUCTS))
          then Raise (IncorrectProductError (product +:+ " is not supported."))
          else Ok (MkLocals state invoice_header (invoice_entries l))
    | READ_ENTRIES =>
        Ok (MkLocals state (invoice_header l) (invoice_entries l ++ [row])%list)
    | READ_GST =>
        g ← read_gst row;
        Ok (MkLocals state (g ∪ invoice_header l) (invoice_entries l))
    end.

(** The whole [for] loop: the first exception ends it. *)
Fixpoint read_loop (l : Locals) (rows : list (list string)) : result Locals :=
  match rows with
  | [] => Ok l
  | row :: rows' => l' ← read_row l row; read_loop l' rows'
  end.

(** The nested [try] blocks after the loop. *)
Definition resolve_invoice_number (invoice_header : gmap string string) : result string :=
  match invoice_header !! "Invoice number" with
  | Some n => Ok n
  | None =>
      match invoice_header !! "Credit memo number" with
      | Some n => Ok n
      | None =>
          match invoice_header !! "Debit memo number" with
          | Some n => Ok n
          | None => Raise (KeyError "Invoice/Credit/Debit number not found")
          end
      end
  end.

(** Everything [read] does after the loop. *)
Definition read_finish (l : Locals)
  : result (gmap string string * list (gmap string string)) :=
  invoice_number ← resolve_invoice_number (invoice_header l);
  invoice_entries_dict ← read_entries invoice_number (invoice_entries l);
  Ok (invoice_header l, invoice_entries_dict).

(** [read] from the rows the csv reader yields. *)
Definition read_rows (rows : list (list string))
  : result (gmap string string * list (gmap string string)) :=
  l ← read_loop initial rows;
  read_finish l.

(** [read], from the text [f.read()] returned for the invoice file. *)
Definition read (data : string)
  : result (gmap string string * list (gmap string string)) :=
  read_rows (Csv.reader_rows (splitlines data)).

End invoice_handler.


(* ===================================================================== *)
(** * The outside world of the pollers                                    *)
(* ===================================================================== *)

(** The pollers talk to a reporting service, read the wall clock, sleep and
    draw random numbers.  The world records the clock (in seconds), how many
    service calls and random draws were made, and the trace of what the
    program did; what the service answers is fixed by a script indexed by
    the number of the call. *)
Module IO.
Import Py.

Inductive Event : Type :=
  | EvCall (method : string) (arg : string)   (* a request sent to the service *)
  | EvSleep (secs : Z).                       (* [time.sleep(secs)] *)

Record World : Type := MkWorld {
  clock : Z;
  calls : nat;
  draws : nat;
  trace : list Event
}.

Definition world0 : World := MkWorld 0 0 0 [].

Inductive outcome (A : Type) : Type :=
  | Returned (a : A) (w : World)
  | Raised (e : exn) (w : World)
  | Polling (w : World).        (* the loop is still running: fuel is spent *)
Arguments Returned {A} a w.
Arguments Raised {A} e w.
Arguments Polling {A} w.

Definition M (A : Type) : Type := World -> outcome A.

#[global] Instance M_ret : MRet M := fun A a w => Returned a w.
#[global] Instance M_bind : MBind M := fun A B f m w =>
  match m w with
  | Returned a w' => f a w'
  | Raised e w' => Raised e w'
  | Polling w' => Polling w'
  end.

Definition raise {A : Type} (e : exn) : M A := fun w => Raised e w.

Definition lift {A : Type} (r : result A) : M A := fun w =>
  match r with
  | Ok a => Returned a w
  | Raise e => Raised e w
  end.

Definition still_polling {A : Type} : M A := fun w => Polling w.

(** A request to the service: the script [answer] gives the response by the
    number of the call, [latency] the time the call takes. *)
Definition call {A : Type} (method arg : string)
    (latency : nat -> Z) (answer : nat -> A) : M A := fun w =>
  Returned (answer (calls w))
    (MkWorld (clock w + latency (calls w)) (S (calls w)) (draws w)
             (trace w ++ [EvCall method arg])).

(** Evaluating [name.attr(...)] for a global [name] of a module: the name
    is looked up when the expression is evaluated, and the lookup raises
    [NameError] unless the module binds it. *)
Definition global_name {A : Type} (bound : list string) (name : string)
    (attr : M A) : M A :=
  if bool_decide (name ∈ bound) then attr else raise (NameError name).

(** [time.time()] and [time.sleep(secs)] in a module that binds the
    names in [bound]. *)
Definition time_time (bound : list string) : M Z :=
  global_name bound "time" (fun w => Returned (clock w) w).

Definition time_sleep (bound : list string) (secs : Z) : M unit :=
  global_name bound "time" (fun w =>
    if secs <? 0 then Raised ValueError w
    else Returned tt (MkWorld (clock w + secs) (calls w) (draws w)
                              (trace w ++ [EvSleep secs]))).

(** [random.randint(a, b)]: an integer [N] with [a <= N <= b], chosen by the
    raw value [entropy] of the draw; [ValueError] on an empty range. *)
Definition randint (a b : Z) (entropy : Z) : result Z :=
  if b <? a then Raise ValueError else Ok (a + entropy mod (b - a + 1)).

(** The next raw value of the random source, for a call of
    [random.randint] in a module that binds the names in [bound]. *)
Definition draw (bound : list string) (entropy : nat -> Z) : M Z :=
  global_name bound "random" (fun w =>
    Returned (entropy (draws w))
      (MkWorld (clock w) (calls w) (S (draws w)) (trace w))).

End IO.

(* ===================================================================== *)
(** * handlers/cm_handler.py                                              *)
(* ===================================================================== *)

Module cm_handler.
Import Py IO.

(** The names the [import] statements of [cm_handler.py] bind; [time] and
    [random] are among them. *)
Definition imports : list string :=
  [ "collections"; "concurrent"; "copy"; "csv"; "io"; "json"; "pprint";
    "random"; "socket"; "time"; "List"; "Dict"; "app"; "flags"; "logging";
    "http"; "user_account_credentials"; "service_account_credentials";
    "config"; "util"; "sheets_handler" ].

(** Minimum amount of time between polling requests. Defaults to 10 seconds. *)
Definition MIN_RETRY_INTERVAL : Z := 10.
(** Maximum amount of time between polling requests. Defaults to 10 minutes. *)
Definition MAX_RETRY_INTERVAL : Z := 10 * 60.
(** Maximum amount of time to spend polling. Defaults to 1 hour. *)
Definition MAX_RETRY_ELAPSED_TIME : Z := 60 * 60.

(** What the Campaign Manager service and the random source answer. *)
Record Service : Type := MkService {
  files_get_status : nat -> string;  (* [report_file['status']] of a call *)
  latency : nat -> Z;                (* seconds a call takes *)
  entropy : nat -> Z                 (* raw values of the random draws *)
}.

(** Python's [x or y] on integers. *)
Definition int_or (x y : Z) : Z := if x =? 0 then y else x.

(** Calculates the next sleep interval based on the previous. *)
Definition _next_sleep_interval (previous_sleep_interval : Z) (e : Z) : result Z :=
  let min_interval := int_or previous_sleep_interval MIN_RETRY_INTERVAL in
  let max_interval := int_or (previous_sleep_interval * 3) MIN_RETRY_INTERVAL in
  r ← randint min_interval max_interval e;
  Ok (Z.min MAX_RETRY_INTERVAL r).

(** The intervals obtained by iterating [_next_sleep_interval] from the
    interval [previous], one raw random value per step. *)
Fixpoint sleep_intervals (previous : Z) (es : list Z) : result (list Z) :=
  match es with
  | [] => Ok []
  | e :: es' =>
      next ← _next_sleep_interval previous e;
      rest ← sleep_intervals next es';
      Ok (next :: rest)
  end.

(** The [while True] loop of [run_report_and_wait] that waits for the
    report file to finish processing; it returns the status it broke on. *)
Fixpoint poll_report_file (svc : Service) (fuel : nat) (sleep start_time : Z)
  : M string :=
  match fuel with
  | O => still_polling
  | S fuel' =>
      status ← call "files.get" EmptyString (latency svc) (files_get_status svc);
      if String.eqb status "REPORT_AVAILABLE" then mret status
      else if negb (String.eqb status "PROCESSING") then raise ReportRunError
      else
        now ← time_time imports;
        if MAX_RETRY_ELAPSED_TIME <? now - start_time
        then raise ReportRunDeadlineExceeded
        else
          e ← draw imports (entropy svc);
          sleep ← lift (_next_sleep_interval sleep e);
          _ ← time_sleep imports sleep;
          poll_report_file svc fuel' sleep start_time
  end.

(** [run_report_and_wait] up to the end of the polling loop: run the
    report, note the start time, poll. *)
Definition run_report_and_wait (svc : Service) (fuel : nat) : M string :=
  _ ← call "reports.run" EmptyString (latency svc) (fun _ => tt);
  start_time ← time_time imports;
  poll_report_file svc fuel 0 start_time.

(** The loop of [_clean_up]: the binding of [start_idx] when the loop ends,
    [None] while the name is unbound. *)
Fixpoint find_start_idx (i : nat) (report_data : list (list string)) : option nat :=
  match report_data with
  | [] => None
  | row :: rest =>
      match row with
      | cell :: _ =>
          if String.eqb cell "Report Fields" then Some (i + 1)%nat
          else find_start_idx (S i) rest
      | [] => find_start_idx (S i) rest
      end
  end.

(** [l[start:-1]] for [start >= 0]. *)
Definition slice_to_last {A : Type} (l : list A) (start : nat) : list A :=
  take (length l - 1 - start) (drop start l).

Definition _clean_up (report_data : list (list string)) : result (list (list string)) :=
  match find_start_idx 0 report_data with
  | None => Raise (UnboundLocalError "start_idx")
  | Some start_idx =>
      (* Last row is total, ignore it. *)
      Ok (slice_to_last report_data start_idx)
  end.

(** The end of [run_report_and_wait]: from the downloaded text to the
    records it returns. *)
Definition report_data_objects (payload : string) : result (list (gmap string string)) :=
  let report_data := Csv.reader_rows (splitlines payload) in
  report_data_cleaned ← _clean_up report_data;
  heading ← getitem report_data_cleaned 0;
  Ok ((fun row => dict_of_pairs (zip heading row)) <$> drop 1 report_data_cleaned).

(** One entry of [response['items']] of the profile listing, and one entry
    of the list [get_accounts] returns. *)
Record UserProfile : Type := MkUserProfile {
  accountId : string;
  profileId : string
}.

Record AccountDetails : Type := MkAccountDetails {
  account_id : string;
  profile_id : string
}.

(** The [for] loop of [get_accounts], from the values of [accounts] and
    [account_details] when it starts. *)
Fixpoint get_accounts_loop (accounts : list string)
    (account_details : list AccountDetails) (items : list UserProfile)
  : list AccountDetails :=
  match items with
  | [] => account_details
  | i :: rest =>
      if bool_decide (accountId i ∈ accounts)
      then get_accounts_loop accounts account_details rest
      else get_accounts_loop (accounts ++ [accountId i])%list
             (account_details ++ [MkAccountDetails (accountId i) (profileId i)])%list
             rest
  end.

(** Fetches the account id and the first profile id that has access to it;
    [items] is [response['items']] of the listing request. *)
Definition get_accounts (items : list UserProfile) : list AccountDetails :=
  get_accounts_loop [] [] items.

End cm_handler.

(* ===================================================================== *)
(** * Dicts whose order of insertion matters                              *)
(* ===================================================================== *)

(** A [dict] that the code iterates over: the pairs in the order in which
    their keys were first inserted, every key once. *)
Module PyDict.

(** [d[k] = v]: a key that is present keeps its place. *)
Fixpoint setitem {V : Type} (d : list (string * V)) (k : string) (v : V)
  : list (string * V) :=
  match d with
  | [] => [(k, v)]
  | (k', v') :: d' =>
      if String.eqb k' k then (k', v) :: d' else (k', v') :: setitem d' k v
  end.

Fixpoint get {V : Type} (d : list (string * V)) (k : string) : option V :=
  match d with
  | [] => None
  | (k', v') :: d' => if String.eqb k' k then Some v' else get d' k
  end.

(** [d[k].append(x)] on a [collections.defaultdict(list)]. *)
Definition append_to {V : Type} (d : list (string * list V)) (k : string) (x : V)
  : list (string * list V) :=
  setitem d k (default [] (get d k) ++ [x])%list.

End PyDict.

(* ===================================================================== *)
(** * utils/util.py                                                       *)
(* ===================================================================== *)

Module util.
Import Py.

(** The [for] loop of [get_valid_rows]: the rows kept before the [break]. *)
Fixpoint valid_rows_loop (csv_rows : list (list string)) : list (list string) :=
  match csv_rows with
  | [] => []
  | row :: rest =>
      match row with
      | [] => []                    (* [not row] *)
      | cell :: _ =>
          (* Stop when the first column is blank. *)
          if str_truthy cell then row :: valid_rows_loop rest else []
      end
  end.

(** [get_valid_rows] from the rows the csv reader yields. *)
Definition get_valid_rows_of (csv_rows : list (list string))
  : result (list (gmap string string)) :=
  let rows := valid_rows_loop csv_rows in
  header ← getitem rows 0;
  (* Convert to valid dict objects. *)
  Ok ((fun row => dict_of_pairs (zip header row)) <$> drop 1 rows).

(** Fetch all the rows in the report until it hits a blank in first column. *)
Definition get_valid_rows (report_data : string) : result (list (gmap string string)) :=
  get_valid_rows_of (Csv.reader_rows (splitlines report_data)).

End util.

(* ===================================================================== *)
(** * handlers/dv360_handler.py                                           *)
(* ===================================================================== *)

Module dv360_handler.
Import Py IO.

(** The names the [import] statements of [dv360_handler.py] bind.  [time]
    is not among them, and no other statement of the module binds it. *)
Definition imports : list string :=
  [ "collections"; "concurrent"; "copy"; "json"; "socket"; "app"; "flags";
    "logging"; "user_account_credentials"; "service_account_credentials";
    "config"; "util"; "sheets_handler" ].

(** The two fields of [response['metadata']] the handler reads; a field the
    response lacks reads as [None]. *)
Record Metadata : Type := MkMetadata {
  running : option bool;
  googleCloudStoragePathForLatestReport : option string
}.

(** What the DV360 service answers. *)
Record Service : Type := MkService {
  createquery : nat -> string;            (* the [queryId] of a created query *)
  getquery : nat -> string -> Metadata;   (* the metadata of a query, by call *)
  latency : nat -> Z                      (* seconds a call takes *)
}.

(** Truthiness of the two fields. *)
Definition is_true (b : option bool) : bool := default false b.
Definition url_truthy (u : option string) : bool :=
  match u with Some s => str_truthy s | None => false end.

(** The classification of one response.  The module defines
    [_get_report_status] twice, with the same body apart from one log line;
    the second definition is the one bound when the pollers run. *)
Definition classify (m : Metadata) : gmap string string :=
  let is_running := running m in
  let report_url := googleCloudStoragePathForLatestReport m in
  if negb (is_true is_running) && url_truthy report_url then
    (* Query completed successfully. *)
    <[ "url" := default EmptyString report_url ]> {[ "status" := "Completed" ]}
  else if negb (is_true is_running) && negb (url_truthy report_url) then
    (* Query failed. *)
    {[ "status" := "Failed" ]}
  else
    (* Query is still running. *)
    {[ "status" := "Running" ]}.

Definition _get_report_status (svc : Service) (query_id : string)
  : M (gmap string string) :=
  response ← call "queries.getquery" query_id (latency svc)
                  (fun n => getquery svc n query_id);
  mret (classify response).

(** [_get_reports_status]: one status query per id.  The pool has one
    worker ([_MAX_WORKERS = 1]), so the queries run one after the other in
    the order of [query_ids]; the pollers only ask whether all statuses are
    completed, which does not depend on the order of the answers. *)
Fixpoint _get_reports_status (svc : Service) (query_ids : list string)
  : M (list (gmap string string)) :=
  match query_ids with
  | [] => mret []
  | query_id :: rest =>
      s ← _get_report_status svc query_id;
      ss ← _get_reports_status svc rest;
      mret (s :: ss)
  end.

(** [[f(s) for s in statuses]] for an [f] that may raise. *)
Fixpoint for_each {A B : Type} (f : A -> result B) (l : list A) : result (list B) :=
  match l with
  | [] => Ok []
  | x :: l' => y ← f x; ys ← for_each f l'; Ok (y :: ys)
  end.

(** [s['status'] == v]. *)
Definition status_is (v : string) (s : gmap string string) : result bool :=
  st ← dict_getitem s "status"; Ok (String.eqb st v).

Fixpoint wait_for_reports_to_complete (svc : Service) (fuel : nat)
    (query_ids : list string) : M (list string) :=
  match fuel with
  | O => still_polling
  | S fuel' =>
      statuses ← _get_reports_status svc query_ids;
      completed ← lift (for_each (status_is "Completed") statuses);
      if forallb id completed
      then lift (for_each (fun s => dict_getitem s "url") statuses)
      else wait_for_reports_to_complete svc fuel' query_ids
  end.

(** The [while True] loop of [create_timezone_report]. *)
Fixpoint wait_for_timezone_report (svc : Service) (fuel : nat) (query_id : string)
  : M string :=
  match fuel with
  | O => still_polling
  | S fuel' =>
      (* Wait until the report has completed or failed. *)
      query_status ← _get_report_status svc query_id;
      completed ← lift (status_is "Completed" query_status);
      if (completed : bool) then lift (dict_getitem query_status "url")
      else
        failed ← lift (status_is "Failed" query_status);
        if (failed : bool) then raise ReportError
        else
          _ ← time_sleep imports 5;
          wait_for_timezone_report svc fuel' query_id
  end.

Definition create_timezone_report (svc : Service) (fuel : nat) : M string :=
  query_id ← call "queries.createquery" EmptyString (latency svc) (createquery svc);
  wait_for_timezone_report svc fuel query_id.

Definition _ADV_ID : string := "Advertiser ID".
Definition _ADV_TIME_ZONE : string := "Advertiser Time Zone".

Definition _get_timezone_query_filters (partners : list string)
  : list (gmap string string) :=
  (fun p => <[ "value" := p ]> {[ "type" := "FILTER_PARTNER" ]}) <$> partners.

Definition advertiser_filter (adv : string) : gmap string string :=
  <[ "value" := adv ]> {[ "type" := "FILTER_ADVERTISER" ]}.

(** Create query filters and group by the invoice date: one list of
    advertiser filters per timezone, [adv_timezone] being iterated in the
    order of its keys. *)
Fixpoint _get_query_filters_from (filters : list (string * list (gmap string string)))
    (adv_timezone : list (string * string))
  : list (string * list (gmap string string)) :=
  match adv_timezone with
  | [] => filters
  | (adv, timezone) :: rest =>
      _get_query_filters_from
        (PyDict.append_to filters timezone (advertiser_filter adv)) rest
  end.

Definition _get_query_filters (adv_timezone : list (string * string))
  : list (string * list (gmap string string)) :=
  _get_query_filters_from [] adv_timezone.

(** The first loop of [create_reports]: the timezone of every advertiser of
    the valid rows; the right-hand side of the assignment is evaluated
    before the key. *)
Fixpoint adv_timezone_from (adv_timezone : list (string * string))
    (valid_rows : list (gmap string string)) : result (list (string * string)) :=
  match valid_rows with
  | [] => Ok adv_timezone
  | row :: rest =>
      timezone ← dict_getitem row _ADV_TIME_ZONE;
      adv ← dict_getitem row _ADV_ID;
      adv_timezone_from (PyDict.setitem adv_timezone adv timezone) rest
  end.

(** [_create_report]: one request that creates the query of a timezone and
    returns its id.  The trace records the timezone of the request; the
    filters and the two report times travel in the body of the request. *)
Definition _create_report (svc : Service) (report_start_time report_end_time : Z)
    (cur_timezone : string) (cur_filter : list (gmap string string)) : M string :=
  call "queries.createquery" cur_timezone (latency svc) (createquery svc).

(** The pool of [create_reports] has one worker, as in
    [_get_reports_status]: the reports are created one after the other in
    the order of [filters]. *)
Fixpoint create_each (svc : Service) (report_start_time report_end_time : Z)
    (filters : list (string * list (gmap string string))) : M (list string) :=
  match filters with
  | [] => mret []
  | (cur_timezone, cur_filter) :: rest =>
      q ← _create_report svc report_start_time report_end_time cur_timezone cur_filter;
      qs ← create_each svc report_start_time report_end_time rest;
      mret (q :: qs)
  end.

Definition create_reports (svc : Service) (timezone_report_data : string)
    (report_start_time report_end_time : Z) : M (list string) :=
  valid_rows ← lift (util.get_valid_rows timezone_report_data);
  adv_timezone ← lift (adv_timezone_from [] valid_rows);
  let filters := _get_query_filters adv_timezone in
  create_each svc report_start_time report_end_time filters.

End dv360_handler.

(* ===================================================================== *)
(** * main.py                                                             *)
(* ===================================================================== *)

Module main.
Import Py.

(** The three lists the invoice workflows fill while they read the files. *)
Record InvoiceBatch : Type := MkInvoiceBatch {
  all_headers : list (gmap string string);
  all_entries : list (gmap string string);
  error_invoices : list string
}.

(** The [except] clauses around [invoice_handler.read]. *)
Definition caught (e : exn) : bool :=
  match e with
  | ProductNotFoundError _ | IncorrectProductError _ | KeyError _ | IndexError => true
  | _ => false
  end.

(** The body of the loop [for f in invoice_files] of
    [_process_invoices_sharepoint] and [_process_invoices_drive]; a file is
    its path and the text read from it. *)
Definition process_invoice_file (b : InvoiceBatch) (f : string * string)
  : result InvoiceBatch :=
  match invoice_handler.read f.2 with
  | Ok (header, entries) =>
      Ok (MkInvoiceBatch (all_headers b ++ [header]) (all_entries b ++ entries)
                         (error_invoices b))
  | Raise e =>
      if caught e
      then Ok (MkInvoiceBatch (all_headers b) (all_entries b)
                              (error_invoices b ++ [f.1]))
      else Raise e
  end.

Fixpoint process_invoice_files (b : InvoiceBatch) (invoice_files : list (string * string))
  : result InvoiceBatch :=
  match invoice_files with
  | [] => Ok b
  | f :: rest => b' ← process_invoice_file b f; process_invoice_files b' rest
  end.

Definition empty_batch : InvoiceBatch := MkInvoiceBatch [] [] [].

End main.

(* ===================================================================== *)
(** * Inputs and reference notions used by the statements                 *)
(* ===================================================================== *)

Module Scenario.
Import Py.

(** The invoice of the specification's scenario: a blank line separates the
    entries from the tax row. *)
Definition invoice_text : string :=
  "Invoice number,INV-1" +:+ LF +:+ LF +:+
  "Product,Campaign Manager" +:+ LF +:+ LF +:+
  "Item,Qty,Price" +:+ LF +:+
  "Widget,2,10.00" +:+ LF +:+ LF +:+
  ",,GST (15%),,3.00".

(** The same invoice with the tax row right after the last entry. *)
Definition invoice_text_adjacent_tax : string :=
  "Invoice number,INV-1" +:+ LF +:+ LF +:+
  "Product,Campaign Manager" +:+ LF +:+ LF +:+
  "Item,Qty,Price" +:+ LF +:+
  "Widget,2,10.00" +:+ LF +:+
  ",,GST (15%),,3.00".

(** The header and the entries the scenario announces. *)
Definition announced_header : gmap string string :=
  {[ "Invoice number" := "INV-1"; "Product" := "Campaign Manager";
     "gst_pct" := "15"; "gst_val" := "3.00" ]}.

Definition announced_entries : list (gmap string string) :=
  [ {[ "Item" := "Widget"; "Qty" := "2"; "Price" := "10.00";
       "Invoice number" := "INV-1" ]} ].

(** The tax-section row of the GST example. *)
Definition gst_row : list string :=
  [ EmptyString; EmptyString; "GST (15%)"; EmptyString; "42.00" ].

(** An invoice whose line after the header-section blank line is blank. *)
Definition blank_product_text : string :=
  "Invoice number,INV-1" +:+ LF +:+ LF +:+ LF +:+
  "Item,Qty" +:+ LF +:+
  "Widget,2".

(** The rows of a small credit memo, and the loop variables of [read] once
    its rows are consumed. *)
Definition credit_memo_rows : list (list string) :=
  [ [ "Credit memo number"; "CM-7" ]; [];
    [ "Product"; "Campaign Manager" ]; [];
    [ "Item"; "Qty" ]; [ "Widget"; " 2 " ] ].

Definition credit_memo_locals : invoice_handler.Locals :=
  invoice_handler.MkLocals invoice_handler.READ_ENTRIES
    {[ "Credit memo number" := "CM-7"; "Product" := "Campaign Manager" ]}
    [ [ "Item"; "Qty" ]; [ "Widget"; " 2 " ] ].

(** A header-section row [read_header] accepts: it has two cells at least. *)
Definition header_row (row : list string) : Prop :=
  exists k v tl, row = k :: v :: tl.

(** The keys that can hold the invoice number, in the order of priority. *)
Definition invoice_number_keys : list string :=
  [ "Invoice number"; "Credit memo number"; "Debit memo number" ].

(** The value of the first key of [keys] that is present in [h]. *)
Definition first_present (h : gmap string string) (keys : list string) : option string :=
  head (omap (fun k => h !! k) keys).

(** A report payload has a sentinel row when some row starts with the cell
    [Report Fields]. *)
Definition has_sentinel (report_data : list (list string)) : Prop :=
  exists row, row ∈ report_data /\ head row = Some "Report Fields".

(** A report payload without sentinel row, and one with it. *)
Definition payload_without_sentinel : list (list string) :=
  [ [ "Campaign Manager report" ]; []; [ "Advertiser"; "Clicks" ];
    [ "acme"; "3" ]; [ "Grand Total:"; "3" ] ].

Definition payload_with_sentinel : list (list string) :=
  [ [ "Campaign Manager report" ]; []; [ "Report Fields" ];
    [ "Advertiser"; "Clicks" ]; [ "acme"; "3" ]; [ "Grand Total:"; "3" ] ].

(** A sequence of sleep intervals stays within the backoff bounds after the
    interval [previous]: each interval lies between the one before it and
    three times that one, capped at [MAX_RETRY_INTERVAL]. *)
Fixpoint within_backoff (previous : Z) (intervals : list Z) : Prop :=
  match intervals with
  | [] => True
  | x :: rest =>
      previous <= x /\
      x <= Z.min (3 * previous) cm_handler.MAX_RETRY_INTERVAL /\
      within_backoff x rest
  end.

(** A Campaign Manager report that stays in processing for ever; calls take
    no time and every random draw has the raw value 0. *)
Definition always_processing : cm_handler.Service :=
  cm_handler.MkService (fun _ => "PROCESSING") (fun _ => 0) (fun _ => 0).

(** A DV360 query that has failed: it is not running and has no report. *)
Definition failed_job : dv360_handler.Service :=
  dv360_handler.MkService (fun _ => "q1")
    (fun _ _ => dv360_handler.MkMetadata (Some false) None) (fun _ => 1).

(** A DV360 query that keeps running; each status call takes 4000 seconds. *)
Definition slow_running_job : dv360_handler.Service :=
  dv360_handler.MkService (fun _ => "q1")
    (fun _ _ => dv360_handler.MkMetadata (Some true) None) (fun _ => 4000).

(** A DV360 query that is running at the first status call and completed
    from the second one on. *)
Definition running_then_completed : dv360_handler.Service :=
  dv360_handler.MkService (fun _ => "q1")
    (fun n _ => match n with
                | O => dv360_handler.MkMetadata (Some true) None
                | S _ => dv360_handler.MkMetadata (Some false)
                           (Some "gs://bucket/report.csv")
                end)
    (fun _ => 1).

(** The parser is past the product row: it reads the entries or the tax
    section. *)
Definition past_product (l : invoice_handler.Locals) : Prop :=
  invoice_handler.state l = invoice_handler.READ_ENTRIES \/
  invoice_handler.state l = invoice_handler.READ_GST.

(** The world after one status request of the Campaign Manager poller, and
    after the sleep that follows it. *)
Definition after_call (svc : cm_handler.Service) (w : IO.World) : IO.World :=
  IO.MkWorld (IO.clock w + cm_handler.latency svc (IO.calls w))
    (S (IO.calls w)) (IO.draws w)
    (IO.trace w ++ [IO.EvCall "files.get" EmptyString]).

Definition after_sleep (svc : cm_handler.Service) (w : IO.World) (secs : Z)
  : IO.World :=
  IO.MkWorld (IO.clock w + cm_handler.latency svc (IO.calls w) + secs)
    (S (IO.calls w)) (S (IO.draws w))
    ((IO.trace w ++ [IO.EvCall "files.get" EmptyString]) ++ [IO.EvSleep secs]).

(** The world after one status request of the DV360 pollers, and after one
    round of requests, one per query id. *)
Definition after_getquery (svc : dv360_handler.Service) (w : IO.World)
    (query_id : string) : IO.World :=
  IO.MkWorld (IO.clock w + dv360_handler.latency svc (IO.calls w))
    (S (IO.calls w)) (IO.draws w)
    (IO.trace w ++ [IO.EvCall "queries.getquery" query_id]).

Fixpoint after_round (svc : dv360_handler.Service) (w : IO.World)
    (query_ids : list string) : IO.World :=
  match query_ids with
  | [] => w
  | query_id :: rest => after_round svc (after_getquery svc w query_id) rest
  end.

(** The statuses one round of requests collects, the first request being
    the call number [n]. *)
Fixpoint round_statuses (svc : dv360_handler.Service) (n : nat)
    (query_ids : list string) : list (gmap string string) :=
  match query_ids with
  | [] => []
  | query_id :: rest =>
      dv360_handler.classify (dv360_handler.getquery svc n query_id) ::
      round_statuses svc (S n) rest
  end.

(** The sleeps recorded in a trace. *)
Definition sleeps (t : list IO.Event) : list Z :=
  omap (fun ev => match ev with IO.EvSleep secs => Some secs | _ => None end) t.

(** The world an outcome ends in. *)
Definition world_of {A : Type} (o : IO.outcome A) : IO.World :=
  match o with
  | IO.Returned _ w | IO.Raised _ w | IO.Polling w => w
  end.

(** The service observes a query as failed: not running, no report. *)
Definition observed_failed (m : dv360_handler.Metadata) : Prop :=
  dv360_handler.is_true (dv360_handler.running m) = false /\
  dv360_handler.url_truthy (dv360_handler.googleCloudStoragePathForLatestReport m) = false.

(** The place of a parser state in the order of the sections. *)
Definition rank (s : invoice_handler.State) : nat :=
  match s with
  | invoice_handler.READ_HEADER => 0
  | invoice_handler.READ_PRODUCT => 1
  | invoice_handler.READ_ENTRIES => 2
  | invoice_handler.READ_GST => 3
  end.

(** The character [c] occurs in [s]. *)
Fixpoint occurs (c : ascii) (s : string) : bool :=
  match s with
  | EmptyString => false
  | String c' s' => Ascii.eqb c' c || occurs c s'
  end.


(** The rows of an invoice up to its first entry row. *)
Definition rows_up_to_entries : list (list string) :=
  [ [ "Invoice number"; "INV-1" ]; [];
    [ "Product"; "Campaign Manager" ]; [];
    [ "Item"; "Qty" ] ].

Definition locals_in_entries : invoice_handler.Locals :=
  invoice_handler.MkLocals invoice_handler.READ_ENTRIES
    {[ "Invoice number" := "INV-1"; "Product" := "Campaign Manager" ]}
    [ [ "Item"; "Qty" ] ].

(** Two invoice files: the scenario with the adjacent tax row, and one
    whose tax row mentions GST without a parenthesis. *)
Definition good_file : string * string :=
  ("good.csv", invoice_text_adjacent_tax).

Definition unparenthesised_gst_file : string * string :=
  ("bad.csv",
   "Invoice number,INV-2" +:+ Py.LF +:+ Py.LF +:+
   "Product,Campaign Manager" +:+ Py.LF +:+ Py.LF +:+
   "Item,Qty" +:+ Py.LF +:+
   ",,GST 15%,,3.00").

(** A row with a non-empty first cell. *)
Definition first_cell_nonempty (row : list string) : Prop :=
  exists c cells, row = String c.1 c.2 :: cells.

(** The three ways in which the polling loop of [run_report_and_wait] ends. *)
Definition poll_finished (o : IO.outcome string) : Prop :=
  match o with
  | IO.Returned status _ => status = "REPORT_AVAILABLE"
  | IO.Raised e _ => e = Py.ReportRunError \/ e = Py.ReportRunDeadlineExceeded
  | IO.Polling _ => False
  end.

(** The sleep intervals [intervals] follow the backoff schedule after the
    interval [previous]; [previous] = 0 stands for no sleep so far. *)
Fixpoint backoff_from (previous : Z) (intervals : list Z) : Prop :=
  match intervals with
  | [] => True
  | x :: rest =>
      (if previous =? 0 then x = cm_handler.MIN_RETRY_INTERVAL
       else previous <= x /\
            x <= Z.min (3 * previous) cm_handler.MAX_RETRY_INTERVAL) /\
      backoff_from x rest
  end.

(** The trace of status requests that are each followed by a sleep. *)
Definition requests_with_sleeps (intervals : list Z) : list IO.Event :=
  concat ((fun secs => [ IO.EvCall "files.get" EmptyString; IO.EvSleep secs ])
            <$> intervals).

(** The last request of a loop that has ended; nothing while it polls. *)
Definition last_request {A : Type} (o : IO.outcome A) : list IO.Event :=
  match o with
  | IO.Polling _ => []
  | _ => [ IO.EvCall "files.get" EmptyString ]
  end.

(** A Campaign Manager report that is available at the third request;
    each request takes two seconds and the raw random value is 7. *)
Definition available_at_third : cm_handler.Service :=
  cm_handler.MkService
    (fun n => match n with
              | 3%nat => "REPORT_AVAILABLE"
              | _ => "PROCESSING"
              end)
    (fun _ => 2) (fun _ => 7).

(** A downloaded report: title, sentinel, heading, one data row, total. *)
Definition report_payload : string :=
  "Campaign Manager report" +:+ Py.LF +:+
  "Report Fields" +:+ Py.LF +:+
  "Advertiser,Clicks" +:+ Py.LF +:+
  "acme,3" +:+ Py.LF +:+
  "Grand Total:,3".

(** The profiles of a listing: two accounts, the first with two profiles. *)
Definition listed_profiles : list cm_handler.UserProfile :=
  [ cm_handler.MkUserProfile "acct-1" "p-1";
    cm_handler.MkUserProfile "acct-2" "p-2";
    cm_handler.MkUserProfile "acct-1" "p-3" ].

(** DV360 queries that are all completed, each with its own report. *)
Definition completed_jobs : dv360_handler.Service :=
  dv360_handler.MkService (fun _ => "q1")
    (fun _ q => dv360_handler.MkMetadata (Some false) (Some ("gs://bucket/" +:+ q)))
    (fun _ => 1).


(** A row at which [get_valid_rows] stops: blank, or with an empty first
    cell. *)
Definition stop_row (row : list string) : Prop :=
  row = [] \/ head row = Some EmptyString.

(** A timezone report: two advertisers in one timezone, one in another,
    then the blank first column that ends the valid rows. *)
Definition timezone_report : string :=
  "Advertiser ID,Advertiser Time Zone" +:+ Py.LF +:+
  "11,Pacific/Auckland" +:+ Py.LF +:+
  "22,Europe/Paris" +:+ Py.LF +:+
  "33,Pacific/Auckland" +:+ Py.LF +:+
  ",,extra".

(** The trace of [k] rounds of status requests, one request per query id
    in each round. *)
Definition rounds (k : nat) (query_ids : list string) : list IO.Event :=
  concat (replicate k (IO.EvCall "queries.getquery" <$> query_ids)).

(** A valid row of the timezone report has both advertiser columns. *)
Definition has_advertiser_columns (row : gmap string string) : Prop :=
  is_Some (row !! dv360_handler._ADV_TIME_ZONE) /\
  is_Some (row !! dv360_handler._ADV_ID).

End Scenario.

(* ===================================================================== *)
(** * Properties of the invoice parser                                    *)
(* ===================================================================== *)

Module invoice_props.
Import Py invoice_handler Scenario.

Ltac unfold_bind := unfold mbind, result_bind, mret, result_ret in *.

Lemma getitem_cons0 {A : Type} (x : A) (l : list A) : getitem (x :: l) 0 = Ok x.
Proof. reflexivity. Qed.

(** ** The scenario *)

(** C2, the claim as stated: on the scenario's text the blank line between
    the entries and the tax row is indexed while [READ_ENTRIES] is the state,
    and [read] raises [IndexError]; it does not return the announced result. *)
Lemma read_scenario_raises :
  read invoice_text = Raise IndexError /\
  read invoice_text <> Ok (announced_header, announced_entries).
Proof. split; [vm_compute; reflexivity | vm_compute; discriminate]. Qed.

(** C2, amended: with the tax row right after the last entry, [read]
    succeeds; [gst_pct] is the whole text between the parentheses, [15%]. *)
Theorem read_scenario_adjacent_tax :
  read invoice_text_adjacent_tax =
    Ok ({[ "Invoice number" := "INV-1"; "Product" := "Campaign Manager";
           "gst_pct" := "15%"; "gst_val" := "3.00" ]},
        [ {[ "Item" := "Widget"; "Qty" := "2"; "Price" := "10.00";
             "Invoice number" := "INV-1" ]} ]).
Proof. vm_compute. reflexivity. Qed.

(** ** GST extraction *)

(** C7, the claim as stated: the captured group is not [15]. *)
Lemma read_gst_not_15 :
  read_gst gst_row <> Ok {[ "gst_pct" := "15"; "gst_val" := "42.00" ]}.
Proof. vm_compute. discriminate. Qed.

(** C7, amended: [read_gst] on the example row returns exactly the two keys
    [gst_pct] and [gst_val], with the values [15%] and [42.00]. *)
Theorem read_gst_example :
  read_gst gst_row = Ok {[ "gst_pct" := "15%"; "gst_val" := "42.00" ]}.
Proof. vm_compute. reflexivity. Qed.

(** ** The product row *)

Lemma read_loop_app (l : Locals) (a b : list (list string)) :
  read_loop l (a ++ b)%list = (l' ← read_loop l a; read_loop l' b).
Proof.
  revert l. induction a as [|row a IH]; intros l; simpl; [reflexivity|].
  unfold_bind. destruct (read_row l row); [apply IH | reflexivity].
Qed.

(** Well-formed header rows are all merged and leave the parser in
    [READ_HEADER]. *)
Lemma read_loop_header_rows (hdrs : list (list string)) :
  Forall header_row hdrs ->
  forall h ents, exists h',
    read_loop (MkLocals READ_HEADER h ents) hdrs = Ok (MkLocals READ_HEADER h' ents).
Proof.
  induction 1 as [|row hdrs (k & v & tl & ->) _ IH]; intros h ents; simpl.
  - eauto.
  - unfold read_row; simpl. rewrite andb_false_r. simpl. unfold_bind. simpl.
    apply IH.
Qed.

(** The part of C8 the parser meets: a row that is not blank and whose first
    cell is not [product], right after the blank line that ends a
    well-formed header section, makes [read] raise [ProductNotFoundError]. *)
Lemma read_rows_product_mismatch (hdrs rest : list (list string)) (cell : string)
    (cells : list string) :
  Forall header_row hdrs ->
  lower cell <> "product" ->
  read_rows (hdrs ++ [] :: (cell :: cells) :: rest) =
    Raise (ProductNotFoundError "Product row not found").
Proof.
  intros Hh Hne. unfold read_rows, initial. rewrite read_loop_app.
  destruct (read_loop_header_rows hdrs Hh ∅ []) as [h' ->].
  unfold_bind. simpl. unfold read_row at 1; simpl. unfold_bind.
  replace (String.eqb (lower cell) "product") with false
    by (symmetry; apply String.eqb_neq; exact Hne).
  rewrite andb_false_r. reflexivity.
Qed.

Lemma read_gst_not_product_error (row : list string) (msg : string) :
  read_gst row <> Raise (ProductNotFoundError msg).
Proof.
  unfold read_gst, gst_fields, getitem, getitem_last. unfold_bind.
  repeat case_match; congruence.
Qed.

Lemma read_row_past_product (l : Locals) (row : list string) :
  past_product l ->
  (forall msg, read_row l row <> Raise (ProductNotFoundError msg)) /\
  (forall l', read_row l row = Ok l' -> past_product l').
Proof.
  intros Hl. pose proof (read_gst_not_product_error row) as Hg.
  unfold past_product in *. destruct l as [st h ents]; simpl in *.
  unfold read_row, getitem; simpl. unfold_bind.
  destruct Hl as [-> | ->]; simpl; rewrite ?andb_false_r, ?andb_true_r; simpl;
    (split; [intros msg | intros l']);
    repeat case_match; simplify_eq; simpl; try congruence; auto;
    try (intros; simplify_eq; simpl; auto).
  all: try (specialize (Hg msg); congruence).
Qed.

Lemma read_loop_past_product (rows : list (list string)) :
  forall l msg, past_product l -> read_loop l rows <> Raise (ProductNotFoundError msg).
Proof.
  induction rows as [|row rows IH]; intros l msg Hl; simpl; [discriminate|].
  destruct (read_row_past_product l row Hl) as [Hraise Hok].
  unfold_bind. destruct (read_row l row) as [l'|e] eqn:E.
  - apply IH. apply Hok. reflexivity.
  - intros [= ->]. exact (Hraise msg eq_refl).
Qed.

Lemma read_finish_not_product_error (l : Locals) (msg : string) :
  read_finish l <> Raise (ProductNotFoundError msg).
Proof.
  unfold read_finish, resolve_invoice_number, read_entries, getitem. unfold_bind.
  repeat case_match; congruence.
Qed.

(** The part of C8 the parser misses, in general: when the line after the
    header-section blank line is blank, [read] never raises
    [ProductNotFoundError], whatever follows. *)
Lemma read_rows_blank_product_row (hdrs rest : list (list string)) (msg : string) :
  Forall header_row hdrs ->
  read_rows (hdrs ++ [] :: [] :: rest) <> Raise (ProductNotFoundError msg).
Proof.
  intros Hh. unfold read_rows, initial. rewrite read_loop_app.
  destruct (read_loop_header_rows hdrs Hh ∅ []) as [h' ->].
  unfold_bind. simpl.
  pose proof (read_loop_past_product rest (MkLocals READ_ENTRIES h' []) msg
                (or_introl eq_refl)) as Hloop.
  destruct (read_loop _ rest) as [l'|e]; [apply read_finish_not_product_error|].
  intros [= ->]. exact (Hloop eq_refl).
Qed.

(** C8, at the failing input: the line after the header-section blank line
    is blank, and [read] returns a header without product and one entry
    instead of raising [ProductNotFoundError]. *)
Theorem read_blank_product_line :
  read blank_product_text =
    Ok ({[ "Invoice number" := "INV-1" ]},
        [ {[ "Item" := "Widget"; "Qty" := "2"; "Invoice number" := "INV-1" ]} ]).
Proof. vm_compute. reflexivity. Qed.

(** ** The invoice number *)

Lemma read_entries_cons (n : string) (header : list string) (data : list (list string)) :
  exists entries,
    read_entries n (header :: data) = Ok entries /\
    length entries = length data /\
    forall e, e ∈ entries -> e !! "Invoice number" = Some n.
Proof.
  unfold read_entries. simpl. unfold_bind. rewrite drop_0.
  eexists; split; [reflexivity|]. split.
  - rewrite !length_fmap. reflexivity.
  - intros e He. apply list_elem_of_fmap in He as (e' & -> & _).
    apply lookup_union_Some_l. apply lookup_singleton_eq.
Qed.

(** C9: once the rows are consumed, [read] takes the invoice number from
    the first of the keys [Invoice number], [Credit memo number],
    [Debit memo number] that the header holds.  With none of them it raises
    [KeyError] and returns nothing; with one of them and a buffered header
    row it returns the header and one entry per data row, each carrying that
    number under [Invoice number] (with no buffered row at all, indexing the
    first one raises [IndexError]). *)
Theorem read_invoice_number_resolution (rows : list (list string)) (l : Locals) :
  read_loop initial rows = Ok l ->
  match first_present (invoice_header l) invoice_number_keys with
  | None => exists msg, read_rows rows = Raise (KeyError msg)
  | Some n =>
      match invoice_entries l with
      | [] => read_rows rows = Raise IndexError
      | _ :: data =>
          exists entries,
            read_rows rows = Ok (invoice_header l, entries) /\
            length entries = length data /\
            forall e, e ∈ entries -> e !! "Invoice number" = Some n
      end
  end.
Proof.
  intros Hloop. unfold read_rows. rewrite Hloop. unfold_bind.
  unfold read_finish, resolve_invoice_number, first_present, invoice_number_keys.
  unfold_bind. simpl.
  assert (Hn : forall n,
    match invoice_entries l with
    | [] => match read_entries n (invoice_entries l) with
            | Ok a => Ok (invoice_header l, a)
            | Raise e => Raise e
            end = Raise IndexError
    | _ :: data =>
        exists entries,
          match read_entries n (invoice_entries l) with
          | Ok a => Ok (invoice_header l, a)
          | Raise e => Raise e
          end = Ok (invoice_header l, entries) /\
          length entries = length data /\
          forall e, e ∈ entries -> e !! "Invoice number" = Some n
    end).
  { intros n. destruct (invoice_entries l) as [|header data]; [reflexivity|].
    destruct (read_entries_cons n header data) as (entries & -> & Hlen & Htag).
    eauto. }
  destruct (invoice_header l !! "Invoice number") as [n|]; simpl; [apply Hn|].
  destruct (invoice_header l !! "Credit memo number") as [n|]; simpl; [apply Hn|].
  destruct (invoice_header l !! "Debit memo number") as [n|]; simpl; [apply Hn|].
  eauto.
Qed.

Lemma read_invoice_number_resolution_witness :
  read_loop initial credit_memo_rows = Ok credit_memo_locals /\
  exists entries,
    read_rows credit_memo_rows = Ok (invoice_header credit_memo_locals, entries) /\
    length entries = 1%nat /\
    forall e, e ∈ entries -> e !! "Invoice number" = Some "CM-7".
Proof.
  assert (H : read_loop initial credit_memo_rows = Ok credit_memo_locals)
    by (vm_compute; reflexivity).
  split; [exact H|].
  exact (read_invoice_number_resolution credit_memo_rows credit_memo_locals H).
Defined.

End invoice_props.

(* ===================================================================== *)
(** * Properties of the Campaign Manager handler                          *)
(* ===================================================================== *)

Module cm_props.
Import Py IO cm_handler Scenario.

Ltac unfold_bind := unfold mbind, result_bind, mret, result_ret in *.

(** ** [_clean_up] *)

Lemma find_start_idx_None (report_data : list (list string)) :
  forall i, find_start_idx i report_data = None -> ~ has_sentinel report_data.
Proof.
  unfold has_sentinel.
  induction report_data as [|row rest IH]; intros i Hnone (r & Hin & Hhead).
  - inversion Hin.
  - simpl in Hnone. apply elem_of_cons in Hin. destruct Hin as [-> | Hin].
    + destruct row as [|cell cells]; [discriminate|].
      simpl in Hhead. injection Hhead as ->. simpl in Hnone. discriminate.
    + destruct row as [|cell cells].
      * apply (IH _ Hnone). eauto.
      * destruct (String.eqb cell "Report Fields"); [discriminate|].
        apply (IH _ Hnone). eauto.
Qed.

Lemma find_start_idx_Some (report_data : list (list string)) :
  forall i k, find_start_idx i report_data = Some k -> has_sentinel report_data.
Proof.
  unfold has_sentinel.
  induction report_data as [|row rest IH]; intros i k Hsome; simpl in Hsome.
  - discriminate.
  - destruct row as [|cell cells].
    + destruct (IH _ _ Hsome) as (r & Hin & Hhead).
      exists r. split; [right; exact Hin | exact Hhead].
    + destruct (String.eqb cell "Report Fields") eqn:E.
      * apply String.eqb_eq in E as ->. eexists. split; [left|]. reflexivity.
      * destruct (IH _ _ Hsome) as (r & Hin & Hhead).
        exists r. split; [right; exact Hin | exact Hhead].
Qed.

(** C10: on a payload without sentinel row [_clean_up] reaches the slice
    with [start_idx] unbound and raises [UnboundLocalError], an error kind
    the handler does not declare; it returns a value exactly when some row
    starts with [Report Fields]. *)
Theorem clean_up_needs_sentinel (report_data : list (list string)) :
  (~ has_sentinel report_data ->
     _clean_up report_data = Raise (UnboundLocalError "start_idx")) /\
  ((exists cleaned, _clean_up report_data = Ok cleaned) <-> has_sentinel report_data).
Proof.
  unfold _clean_up. destruct (find_start_idx 0 report_data) as [start_idx|] eqn:E.
  - apply find_start_idx_Some in E.
    split; [intros Hn; contradiction|]. split; eauto.
  - apply find_start_idx_None in E.
    split; [reflexivity|]. split; [intros [? [=]] | intros Hs; contradiction].
Qed.

Lemma clean_up_needs_sentinel_witness :
  ~ has_sentinel payload_without_sentinel /\
  _clean_up payload_without_sentinel = Raise (UnboundLocalError "start_idx").
Proof.
  assert (H : ~ has_sentinel payload_without_sentinel).
  { apply (find_start_idx_None _ 0%nat). vm_compute. reflexivity. }
  split; [exact H|].
  exact (proj1 (clean_up_needs_sentinel payload_without_sentinel) H).
Defined.

(** With the sentinel row the rows after it are returned, the last one
    (the total) left out. *)
Example clean_up_with_sentinel :
  _clean_up payload_with_sentinel = Ok [ [ "Advertiser"; "Clicks" ]; [ "acme"; "3" ] ].
Proof. reflexivity. Qed.

(** ** The backoff schedule *)

Lemma randint_range (a b e r : Z) : randint a b e = Ok r -> a <= r <= b.
Proof.
  unfold randint. destruct (b <? a) eqn:E; [discriminate|].
  intros [= <-]. apply Z.ltb_ge in E.
  pose proof (Z.mod_pos_bound e (b - a + 1)). lia.
Qed.

(** Every integer of the range is the outcome of some draw. *)
Lemma randint_onto (a b r : Z) : a <= r <= b -> randint a b (r - a) = Ok r.
Proof.
  intros H. unfold randint. destruct (b <? a) eqn:E; [apply Z.ltb_lt in E; lia|].
  rewrite Z.mod_small by lia. f_equal. lia.
Qed.

Lemma next_sleep_interval_first (e : Z) :
  _next_sleep_interval 0 e = Ok MIN_RETRY_INTERVAL.
Proof.
  unfold _next_sleep_interval, randint, int_or, MIN_RETRY_INTERVAL, MAX_RETRY_INTERVAL.
  simpl. rewrite Z.mod_1_r. reflexivity.
Qed.

Lemma next_sleep_interval_step (previous e : Z) :
  MIN_RETRY_INTERVAL <= previous <= MAX_RETRY_INTERVAL ->
  exists next,
    _next_sleep_interval previous e = Ok next /\
    previous <= next <= Z.min (3 * previous) MAX_RETRY_INTERVAL.
Proof.
  unfold _next_sleep_interval, int_or, MIN_RETRY_INTERVAL, MAX_RETRY_INTERVAL.
  intros H.
  destruct (previous =? 0) eqn:E0; [apply Z.eqb_eq in E0; lia|].
  destruct (previous * 3 =? 0) eqn:E1; [apply Z.eqb_eq in E1; lia|].
  destruct (randint previous (previous * 3) e) as [r|x] eqn:Er.
  - apply randint_range in Er. unfold_bind. eexists. split; [reflexivity|]. lia.
  - unfold randint in Er. destruct (previous * 3 <? previous) eqn:E2; [|discriminate].
    apply Z.ltb_lt in E2. lia.
Qed.

Lemma sleep_intervals_within (es : list Z) :
  forall previous,
    MIN_RETRY_INTERVAL <= previous <= MAX_RETRY_INTERVAL ->
    exists intervals,
      sleep_intervals previous es = Ok intervals /\
      length intervals = length es /\
      within_backoff previous intervals.
Proof.
  induction es as [|e es IH]; intros previous Hp; cbn [sleep_intervals].
  - exists []. repeat split.
  - destruct (next_sleep_interval_step previous e Hp) as (next & -> & Hnext).
    unfold_bind.
    destruct (IH next) as (rest & -> & Hlen & Hrest).
    { unfold MIN_RETRY_INTERVAL, MAX_RETRY_INTERVAL in *. lia. }
    exists (next :: rest). simpl. repeat split; auto; lia.
Qed.

(** C4: whatever the random draws [e], [es] are, iterating
    [_next_sleep_interval] from 0 never fails, the first interval is
    [MIN_RETRY_INTERVAL] = 10, and every later interval lies between the one
    before it and the smaller of three times that one and
    [MAX_RETRY_INTERVAL] = 600. *)
Theorem backoff_sequence_bounds (e : Z) (es : list Z) :
  MIN_RETRY_INTERVAL = 10 /\ MAX_RETRY_INTERVAL = 600 /\
  exists rest,
    sleep_intervals 0 (e :: es) = Ok (MIN_RETRY_INTERVAL :: rest) /\
    length rest = length es /\
    within_backoff MIN_RETRY_INTERVAL rest.
Proof.
  split; [reflexivity|]. split; [reflexivity|].
  cbn [sleep_intervals]. rewrite next_sleep_interval_first. unfold_bind.
  destruct (sleep_intervals_within es MIN_RETRY_INTERVAL) as (rest & -> & Hlen & Hin).
  { unfold MIN_RETRY_INTERVAL, MAX_RETRY_INTERVAL. lia. }
  eauto.
Qed.

(** ** The polling loop of [run_report_and_wait] *)

Lemma time_is_bound : bool_decide ("time" ∈ imports) = true.
Proof. vm_compute. reflexivity. Qed.

Lemma random_is_bound : bool_decide ("random" ∈ imports) = true.
Proof. vm_compute. reflexivity. Qed.

(** One tick of the loop, spelled out. *)
Lemma poll_report_file_tick (svc : Service) (fuel : nat) (sleep start_time : Z)
    (w : World) :
  poll_report_file svc (S fuel) sleep start_time w =
    let status := files_get_status svc (calls w) in
    if String.eqb status "REPORT_AVAILABLE" then Returned status (after_call svc w)
    else if negb (String.eqb status "PROCESSING")
    then Raised ReportRunError (after_call svc w)
    else if MAX_RETRY_ELAPSED_TIME <? clock (after_call svc w) - start_time
    then Raised ReportRunDeadlineExceeded (after_call svc w)
    else match _next_sleep_interval sleep (entropy svc (draws w)) with
         | Raise e =>
             Raised e (MkWorld (clock w + latency svc (calls w)) (S (calls w))
                               (S (draws w))
                               (trace w ++ [EvCall "files.get" EmptyString]))
         | Ok next =>
             if next <? 0
             then Raised ValueError
                    (MkWorld (clock w + latency svc (calls w)) (S (calls w))
                             (S (draws w))
                             (trace w ++ [EvCall "files.get" EmptyString]))
             else poll_report_file svc fuel next start_time (after_sleep svc w next)
         end.
Proof.
  cbn [poll_report_file]. unfold mbind, M_bind, call, mret, M_ret, raise.
  cbn zeta. destruct (String.eqb _ "REPORT_AVAILABLE"); [reflexivity|].
  destruct (negb _); [reflexivity|].
  unfold time_time, time_sleep, draw, global_name.
  rewrite time_is_bound, random_is_bound. cbn [clock calls draws trace after_call].
  destruct (MAX_RETRY_ELAPSED_TIME <? _); [reflexivity|].
  unfold lift. destruct (_next_sleep_interval _ _) as [next|e]; [|reflexivity].
  cbn [clock calls draws trace]. destruct (next <? 0); reflexivity.
Qed.

Lemma next_sleep_interval_inv (sleep e : Z) :
  sleep = 0 \/ MIN_RETRY_INTERVAL <= sleep <= MAX_RETRY_INTERVAL ->
  exists next,
    _next_sleep_interval sleep e = Ok next /\
    MIN_RETRY_INTERVAL <= next <= MAX_RETRY_INTERVAL.
Proof.
  intros [-> | H].
  - rewrite next_sleep_interval_first. eexists. split; [reflexivity|].
    unfold MIN_RETRY_INTERVAL, MAX_RETRY_INTERVAL. lia.
  - destruct (next_sleep_interval_step sleep e H) as (next & -> & Hn).
    eexists. split; [reflexivity|].
    unfold MIN_RETRY_INTERVAL, MAX_RETRY_INTERVAL in *. lia.
Qed.

(** The check of a single tick: the file is still processing and more than
    [MAX_RETRY_ELAPSED_TIME] has elapsed since the start time, so the loop
    raises; it neither sleeps nor polls again. *)
Lemma poll_report_file_deadline_tick (svc : Service) (fuel : nat)
    (sleep start_time : Z) (w : World) :
  files_get_status svc (calls w) = "PROCESSING" ->
  MAX_RETRY_ELAPSED_TIME < clock w + latency svc (calls w) - start_time ->
  poll_report_file svc (S fuel) sleep start_time w =
    Raised ReportRunDeadlineExceeded (after_call svc w).
Proof.
  intros Hst Hlate. rewrite poll_report_file_tick. cbn zeta. rewrite Hst.
  cbn [String.eqb Ascii.eqb Bool.eqb negb]. cbn [after_call clock].
  apply Z.ltb_lt in Hlate. rewrite Hlate. reflexivity.
Qed.

(** A report that never leaves processing: every tick sleeps ten seconds at
    least, so the deadline check fires before the fuel [fuel] is spent once
    ten seconds per unit of fuel exceed what is left until the deadline. *)
Lemma poll_report_file_processing (svc : Service) :
  (forall n, 0 <= latency svc n) ->
  (forall n, files_get_status svc n = "PROCESSING") ->
  forall fuel sleep start_time w,
    sleep = 0 \/ MIN_RETRY_INTERVAL <= sleep <= MAX_RETRY_INTERVAL ->
    start_time + MAX_RETRY_ELAPSED_TIME - clock w < 10 * Z.of_nat fuel ->
    exists w',
      poll_report_file svc (S fuel) sleep start_time w =
        Raised ReportRunDeadlineExceeded w' /\
      MAX_RETRY_ELAPSED_TIME < clock w' - start_time.
Proof.
  intros Hlat Hst. induction fuel as [|fuel IH]; intros sleep start_time w Hsleep Hleft.
  - exists (after_call svc w). pose proof (Hlat (calls w)).
    split; [apply poll_report_file_deadline_tick; [apply Hst | lia]|].
    cbn [after_call clock]. lia.
  - destruct (Z.ltb_spec MAX_RETRY_ELAPSED_TIME
                (clock w + latency svc (calls w) - start_time)) as [Hlate | Hearly].
    + exists (after_call svc w).
      split; [apply poll_report_file_deadline_tick; [apply Hst | lia]|].
      cbn [after_call clock]. lia.
    + rewrite poll_report_file_tick. cbn zeta. rewrite Hst.
      cbn [String.eqb Ascii.eqb Bool.eqb negb]. cbn [after_call clock].
      apply Z.ltb_ge in Hearly. rewrite Hearly.
      destruct (next_sleep_interval_inv sleep (entropy svc (draws w)) Hsleep)
        as (next & -> & Hnext).
      unfold MIN_RETRY_INTERVAL in Hnext.
      destruct (Z.ltb_spec next 0) as [Hneg | _]; [lia|].
      apply IH; [right; unfold MIN_RETRY_INTERVAL; exact Hnext|].
      cbn [after_sleep clock]. pose proof (Hlat (calls w)). lia.
Qed.

(** C3, amended to the single-job wait.  In [run_report_and_wait] every
    tick that finds the file still processing with more than
    [MAX_RETRY_ELAPSED_TIME] = 3600 seconds elapsed since the start time
    raises [ReportRunDeadlineExceeded] without sleeping or polling again;
    and a report that never leaves processing makes the call raise that
    error within 362 ticks, whatever the random draws are. *)
Theorem run_report_and_wait_deadline (svc : Service) :
  MAX_RETRY_ELAPSED_TIME = 3600 /\
  (forall fuel sleep start_time w,
     files_get_status svc (calls w) = "PROCESSING" ->
     MAX_RETRY_ELAPSED_TIME < clock w + latency svc (calls w) - start_time ->
     poll_report_file svc (S fuel) sleep start_time w =
       Raised ReportRunDeadlineExceeded (after_call svc w)) /\
  ((forall n, 0 <= latency svc n) ->
   (forall n, files_get_status svc n = "PROCESSING") ->
   forall w, exists w',
     run_report_and_wait svc 362 w = Raised ReportRunDeadlineExceeded w').
Proof.
  split; [reflexivity|]. split; [apply poll_report_file_deadline_tick|].
  intros Hlat Hst w. unfold run_report_and_wait.
  unfold mbind, M_bind, call, time_time, global_name. rewrite time_is_bound.
  destruct (poll_report_file_processing svc Hlat Hst 361
              0 (clock w + latency svc (calls w))
              (MkWorld (clock w + latency svc (calls w)) (S (calls w)) (draws w)
                       (trace w ++ [EvCall "reports.run" EmptyString])))
    as (w' & Hrun & _).
  - left. reflexivity.
  - cbn [clock]. unfold MAX_RETRY_ELAPSED_TIME. lia.
  - exists w'. exact Hrun.
Qed.

Lemma run_report_and_wait_deadline_witness :
  exists w',
    run_report_and_wait always_processing 362 world0 =
      Raised ReportRunDeadlineExceeded w'.
Proof.
  apply (proj2 (proj2 (run_report_and_wait_deadline always_processing))).
  - intros n. simpl. lia.
  - intros n. reflexivity.
Defined.

End cm_props.

(* ===================================================================== *)
(** * Properties of the DV360 handler                                     *)
(* ===================================================================== *)

Module dv360_props.
Import Py IO dv360_handler Scenario.

Ltac unfold_bind := unfold mbind, result_bind, mret, result_ret in *.
Ltac unfold_io := unfold mbind, M_bind, mret, M_ret, call, lift, raise, still_polling in *.

(** ** Classification of a status response *)

(** C6: [_get_report_status] sends one request and classifies its answer.
    A query that is not running and has a report locator is [Completed] and
    the locator is its [url]; a query that is not running and has no locator
    is [Failed]; a running query is [Running].  A locator is present when
    the field holds a non-empty string, which is Python's truth value of
    the field. *)
Theorem get_report_status_classification (svc : Service) (query_id : string)
    (w : World) :
  let m := getquery svc (calls w) query_id in
  exists status,
    _get_report_status svc query_id w =
      Returned status (after_getquery svc w query_id) /\
    (running m <> Some true ->
       forall u, googleCloudStoragePathForLatestReport m = Some u ->
                 u <> EmptyString ->
                 status = <[ "url" := u ]> {[ "status" := "Completed" ]}) /\
    (running m <> Some true ->
       googleCloudStoragePathForLatestReport m = None \/
       googleCloudStoragePathForLatestReport m = Some EmptyString ->
       status = {[ "status" := "Failed" ]}) /\
    (running m = Some true -> status = {[ "status" := "Running" ]}).
Proof.
  intros m. exists (classify m). split; [reflexivity|].
  unfold classify, is_true, url_truthy.
  destruct (running m) as [[|]|]; simpl;
    (split; [|split]); try congruence.
  all: try (intros _ u -> Hu; destruct u; [congruence | reflexivity]).
  all: try (intros _ [-> | ->]; reflexivity).
Qed.

Lemma get_report_status_classification_witness :
  exists status,
    _get_report_status running_then_completed "q1" (MkWorld 0 1 0 []) =
      Returned status (after_getquery running_then_completed (MkWorld 0 1 0 []) "q1") /\
    status = <[ "url" := "gs://bucket/report.csv" ]> {[ "status" := "Completed" ]}.
Proof.
  destruct (get_report_status_classification running_then_completed "q1"
              (MkWorld 0 1 0 [])) as (status & Hrun & Hcompleted & _ & _).
  exists status. split; [exact Hrun|].
  apply Hcompleted; [discriminate | reflexivity | discriminate].
Defined.

(** ** The multi-job wait *)

(** One round of status requests. *)
Lemma get_reports_status_run (svc : Service) (query_ids : list string) :
  forall w,
    _get_reports_status svc query_ids w =
      Returned (round_statuses svc (calls w) query_ids) (after_round svc w query_ids).
Proof.
  induction query_ids as [|query_id rest IH]; intros w; [reflexivity|].
  cbn [_get_reports_status round_statuses after_round].
  unfold _get_report_status. unfold_io.
  fold (after_getquery svc w query_id). rewrite IH. reflexivity.
Qed.

Lemma after_round_trace (svc : Service) (query_ids : list string) :
  forall w,
    trace (after_round svc w query_ids) =
      (trace w ++ (EvCall "queries.getquery" <$> query_ids))%list.
Proof.
  induction query_ids as [|query_id rest IH]; intros w; simpl.
  - rewrite app_nil_r. reflexivity.
  - rewrite IH. simpl. rewrite <- app_assoc. reflexivity.
Qed.

Lemma after_round_sleeps (svc : Service) (query_ids : list string) (w : World) :
  sleeps (trace (after_round svc w query_ids)) = sleeps (trace w).
Proof.
  rewrite after_round_trace. unfold sleeps. rewrite omap_app.
  assert (H : omap (fun ev => match ev with EvSleep secs => Some secs | _ => None end)
                   (EvCall "queries.getquery" <$> query_ids) = []).
  { induction query_ids as [|q rest IH]; [reflexivity | exact IH]. }
  rewrite H, app_nil_r. reflexivity.
Qed.

Lemma status_is_classify (v : string) (m : Metadata) :
  exists b, status_is v (classify m) = Ok b.
Proof.
  unfold classify. repeat case_match; eexists; vm_compute; reflexivity.
Qed.

Lemma status_is_completed_failed (m : Metadata) :
  observed_failed m -> status_is "Completed" (classify m) = Ok false.
Proof.
  intros [Hrun Hurl]. unfold classify. rewrite Hrun, Hurl. reflexivity.
Qed.

Lemma round_completed_flags (svc : Service) (query_ids : list string) :
  forall n, exists flags,
    for_each (status_is "Completed") (round_statuses svc n query_ids) = Ok flags /\
    ((exists q, q ∈ query_ids /\ forall k, observed_failed (getquery svc k q)) ->
     forallb id flags = false).
Proof.
  induction query_ids as [|query_id rest IH]; intros n.
  - exists []. split; [reflexivity|]. intros (q & Hin & _). inversion Hin.
  - cbn [round_statuses for_each].
    destruct (status_is_classify "Completed" (getquery svc n query_id)) as [b Hb].
    destruct (IH (S n)) as (flags & Hflags & Hfailed).
    rewrite Hb. unfold_bind. rewrite Hflags. exists (b :: flags).
    split; [reflexivity|]. intros (q & Hin & Hq). cbn [forallb].
    apply elem_of_cons in Hin. destruct Hin as [-> | Hin].
    + rewrite (status_is_completed_failed _ (Hq n)) in Hb.
      injection Hb as <-. reflexivity.
    + rewrite Hfailed by eauto. apply andb_false_r.
Qed.

(** A failed job stalls the wait: the loop raises nothing and returns
    nothing, it polls for as long as the job is observed failed. *)
Lemma wait_for_reports_stuck_on_failed (svc : Service) (query_ids : list string) :
  (exists q, q ∈ query_ids /\ forall k, observed_failed (getquery svc k q)) ->
  forall fuel w, exists w',
    wait_for_reports_to_complete svc fuel query_ids w = Polling w'.
Proof.
  intros Hfailed. induction fuel as [|fuel IH]; intros w.
  - exists w. reflexivity.
  - cbn [wait_for_reports_to_complete]. unfold mbind at 1, M_bind at 1.
    rewrite get_reports_status_run.
    destruct (round_completed_flags svc query_ids (calls w)) as (flags & Hflags & Hall).
    unfold mbind, M_bind, lift. rewrite Hflags, (Hall Hfailed). apply IH.
Qed.

(** C1, at the failing input: the only job of the batch is observed failed
    at every poll, and [wait_for_reports_to_complete] keeps polling whatever
    the fuel; it raises no error. *)
Theorem wait_for_reports_ignores_failed :
  forall fuel, exists w,
    wait_for_reports_to_complete failed_job fuel [ "q1" ] world0 = Polling w /\
    calls w = fuel.
Proof.
  assert (H : forall fuel w,
    wait_for_reports_to_complete failed_job fuel [ "q1" ] w =
      Polling (Nat.iter fuel (fun w => after_getquery failed_job w "q1") w)).
  { induction fuel as [|fuel IH]; intros w; [reflexivity|].
    rewrite Nat.iter_succ_r. rewrite <- IH. reflexivity. }
  assert (Hcalls : forall fuel w,
    calls (Nat.iter fuel (fun w => after_getquery failed_job w "q1") w) =
      (fuel + calls w)%nat).
  { induction fuel as [|fuel IH]; intros w; [reflexivity|].
    rewrite Nat.iter_succ. unfold after_getquery at 1. cbn [calls].
    rewrite IH. lia. }
  intros fuel. eexists. split; [apply H|]. rewrite Hcalls. simpl. lia.
Qed.

(** The sibling loop of the same module does treat a failed query: the
    timezone wait raises [ReportError] at the first poll that observes it. *)
Example create_timezone_report_failed :
  create_timezone_report failed_job 1 world0 =
    Raised ReportError
      (MkWorld 2 2 0 [ EvCall "queries.createquery" EmptyString;
                       EvCall "queries.getquery" "q1" ]).
Proof. vm_compute. reflexivity. Qed.

(** C3, the claim as stated: the job keeps running and the clock is far
    beyond 3600 seconds after the first poll, yet the multi-job wait goes on
    to a second and a third round of status requests and raises nothing. *)
Lemma wait_for_reports_no_deadline :
  wait_for_reports_to_complete slow_running_job 3 [ "q1" ] world0 =
    Polling (MkWorld 12000 3 0 [ EvCall "queries.getquery" "q1";
                                 EvCall "queries.getquery" "q1";
                                 EvCall "queries.getquery" "q1" ]).
Proof. vm_compute. reflexivity. Qed.

(** The multi-job wait never sleeps: whatever the service answers, the trace
    gains no sleep. *)
Lemma wait_for_reports_never_sleeps (svc : Service) (query_ids : list string) :
  forall fuel w,
    sleeps (trace (world_of (wait_for_reports_to_complete svc fuel query_ids w))) =
      sleeps (trace w).
Proof.
  induction fuel as [|fuel IH]; intros w; [reflexivity|].
  cbn [wait_for_reports_to_complete]. unfold mbind at 1, M_bind at 1.
  rewrite get_reports_status_run. unfold mbind, M_bind, lift.
  destruct (for_each (status_is "Completed") _) as [flags|e]; simpl;
    [|apply after_round_sleeps].
  destruct (forallb id flags).
  - destruct (for_each _ _); simpl; apply after_round_sleeps.
  - rewrite IH. apply after_round_sleeps.
Qed.

(** C5, at the failing inputs.  The multi-job wait finds the query running
    at its first round and issues the second round at once: the trace holds
    the two requests and no sleep between them.  The timezone wait finds the
    query running and evaluates [time.sleep(5)] in a module that does not
    import [time]: it raises [NameError] instead of sleeping. *)
Theorem dv360_waits_do_not_sleep :
  wait_for_reports_to_complete running_then_completed 2 [ "q1" ] world0 =
    Returned [ "gs://bucket/report.csv" ]
      (MkWorld 2 2 0 [ EvCall "queries.getquery" "q1";
                       EvCall "queries.getquery" "q1" ]) /\
  create_timezone_report slow_running_job 2 world0 =
    Raised (NameError "time")
      (MkWorld 8000 2 0 [ EvCall "queries.createquery" EmptyString;
                          EvCall "queries.getquery" "q1" ]).
Proof. split; vm_compute; reflexivity. Qed.

End dv360_props.

(* ===================================================================== *)
(** * Further properties of the invoice parser                            *)
(* ===================================================================== *)

Module invoice_more.
Import Py invoice_handler Scenario.

Ltac unfold_bind := unfold mbind, result_bind, mret, result_ret in *.

(** ** The sections are read in order *)

Lemma read_row_forward (l l' : Locals) (row : list string) :
  read_row l row = Ok l' ->
  (rank (state l) <= rank (state l'))%nat /\
  dom (invoice_header l) ⊆ dom (invoice_header l') /\
  invoice_entries l `prefix_of` invoice_entries l'.
Proof.
  destruct l as [st h ents]. unfold read_row, read_header, getitem; simpl.
  unfold_bind. intros H.
  destruct st, row as [|c cells]; simpl in H;
    rewrite ?andb_false_r, ?andb_true_r in H; simpl in H;
    repeat case_match; simplify_eq; simpl;
    repeat split; try lia; try set_solver; try reflexivity;
    try (apply prefix_app_r; reflexivity).
Qed.

(** X1: along the rows of an invoice the parser only moves forward through
    its sections (header, product, entries, tax), never drops a key of the
    header, and only appends to the buffered entry rows. *)
Theorem read_loop_only_forward (rows : list (list string)) :
  forall l l',
    read_loop l rows = Ok l' ->
    (rank (state l) <= rank (state l'))%nat /\
    dom (invoice_header l) ⊆ dom (invoice_header l') /\
    invoice_entries l `prefix_of` invoice_entries l'.
Proof.
  induction rows as [|row rows IH]; intros l l' H; simpl in H.
  - injection H as <-. repeat split; reflexivity.
  - unfold_bind. destruct (read_row l row) as [l1|e] eqn:E; [|discriminate].
    destruct (read_row_forward _ _ _ E) as (Hr & Hd & He).
    destruct (IH _ _ H) as (Hr' & Hd' & He').
    repeat split; [lia | etrans; eassumption | etrans; eassumption].
Qed.

Lemma read_loop_only_forward_witness :
  read_loop initial rows_up_to_entries = Ok locals_in_entries /\
  (rank (state initial) <= rank (state locals_in_entries))%nat /\
  dom (invoice_header initial) ⊆ dom (invoice_header locals_in_entries) /\
  invoice_entries initial `prefix_of` invoice_entries locals_in_entries.
Proof.
  assert (H : read_loop initial rows_up_to_entries = Ok locals_in_entries)
    by (vm_compute; reflexivity).
  split; [exact H|].
  exact (read_loop_only_forward rows_up_to_entries initial locals_in_entries H).
Defined.

(** ** Blank lines after the product row *)

(** X2: once the parser reads the entries or the tax section, a blank line
    makes [read] raise [IndexError], whatever follows it. *)
Theorem read_rows_blank_line_past_product (before after : list (list string))
    (l : Locals) :
  read_loop initial before = Ok l ->
  past_product l ->
  read_rows (before ++ [] :: after) = Raise IndexError.
Proof.
  intros Hloop Hpast. unfold read_rows.
  rewrite invoice_props.read_loop_app, Hloop. unfold_bind. simpl.
  destruct l as [st h ents]. unfold past_product in Hpast; simpl in Hpast.
  unfold read_row; simpl. destruct Hpast as [-> | ->]; reflexivity.
Qed.

Lemma read_rows_blank_line_past_product_witness :
  read_loop initial rows_up_to_entries = Ok locals_in_entries /\
  past_product locals_in_entries /\
  read_rows (rows_up_to_entries ++ [] :: [ [ "Widget"; "2" ] ]) = Raise IndexError.
Proof.
  assert (H : read_loop initial rows_up_to_entries = Ok locals_in_entries)
    by (vm_compute; reflexivity).
  assert (Hp : past_product locals_in_entries) by (left; reflexivity).
  split; [exact H|]. split; [exact Hp|].
  exact (read_rows_blank_line_past_product rows_up_to_entries
           [ [ "Widget"; "2" ] ] locals_in_entries H Hp).
Defined.

(** ** The product row *)

Lemma lookup_header_Product (v : string) (h : gmap string string) :
  dict_getitem ({[ "Product" := v ]} ∪ h) "Product" = Ok v.
Proof.
  unfold dict_getitem.
  rewrite (lookup_union_Some_l _ _ _ v); [reflexivity|].
  apply lookup_singleton_eq.
Qed.

(** X3: after a well-formed header section and its blank line, a row
    [Product,v] whose product [v] is not one of [SUPPORTED_PRODUCTS] makes
    [read] raise [IncorrectProductError] with the message that names [v]. *)
Theorem read_rows_unsupported_product (hdrs rest : list (list string))
    (v : string) (cells : list string) :
  Forall header_row hdrs ->
  v ∉ SUPPORTED_PRODUCTS ->
  read_rows (hdrs ++ [] :: ("Product" :: v :: cells) :: rest) =
    Raise (IncorrectProductError (v +:+ " is not supported.")).
Proof.
  intros Hh Hv. unfold read_rows, initial. rewrite invoice_props.read_loop_app.
  destruct (invoice_props.read_loop_header_rows hdrs Hh ∅ []) as [h' ->].
  unfold_bind. cbn [read_loop]. unfold read_row at 1; simpl. unfold_bind.
  rewrite lookup_header_Product.
  rewrite bool_decide_eq_false_2 by exact Hv. reflexivity.
Qed.

Lemma read_rows_unsupported_product_witness :
  read_rows ([ [ "Invoice number"; "INV-1" ] ] ++
             [] :: ("Product" :: "Some Other Product" :: []) :: []) =
    Raise (IncorrectProductError ("Some Other Product" +:+ " is not supported.")).
Proof.
  apply (read_rows_unsupported_product [ [ "Invoice number"; "INV-1" ] ] []
           "Some Other Product" []).
  - repeat constructor. exists "Invoice number", "INV-1", []. reflexivity.
  - unfold SUPPORTED_PRODUCTS. intros H.
    repeat (apply elem_of_cons in H; destruct H as [H | H]; [discriminate|]).
    inversion H.
Defined.

(** ** The exceptions of [read] *)








(** ** The tax row *)

Lemma greedy_upto_close_none (post : string) :
  occurs ")" post = false -> greedy_upto_close post = None.
Proof.
  induction post as [|c post IH]; simpl; [reflexivity|].
  intros H. apply orb_false_iff in H as [Hc Hpost].
  destruct (Ascii.eqb c (chr 10)); [reflexivity|].
  rewrite (IH Hpost), Hc. reflexivity.
Qed.

Lemma greedy_upto_close_group (g post : string) :
  occurs (chr 10) g = false ->
  occurs ")" post = false ->
  greedy_upto_close (g +:+ String ")" post) = Some g.
Proof.
  intros Hg Hpost. induction g as [|c g IH]; simpl.
  - rewrite (greedy_upto_close_none post Hpost). reflexivity.
  - simpl in Hg. apply orb_false_iff in Hg as [Hc Hg].
    rewrite Hc, (IH Hg). reflexivity.
Qed.

Lemma re_search_parens_skip (pre s' : string) :
  occurs "(" pre = false ->
  re_search_parens (pre +:+ s') = re_search_parens s'.
Proof.
  induction pre as [|c pre IH]; simpl; [reflexivity|].
  intros H. apply orb_false_iff in H as [Hc Hpre].
  rewrite Hc. apply IH, Hpre.
Qed.

(** The group of a text that has one parenthesised part. *)
Lemma re_search_parens_group (pre g post : string) :
  occurs "(" pre = false ->
  occurs (chr 10) g = false ->
  occurs ")" post = false ->
  re_search_parens (pre +:+ String "(" (g +:+ String ")" post)) = Some g.
Proof.
  intros Hpre Hg Hpost. rewrite (re_search_parens_skip _ _ Hpre). simpl.
  rewrite (greedy_upto_close_group g post Hg Hpost). reflexivity.
Qed.

(** X6: for a tax row whose first cell is empty and whose third cell
    mentions GST and reads [pre(g)post], with no opening parenthesis in
    [pre], no closing one in [post] and no line feed in [g], [read_gst]
    returns [gst_pct = g] and [gst_val] = the last cell of the row.  When
    the third cell does not mention GST and the fourth one does, the fourth
    cell is used in the same way. *)
Theorem read_gst_between_parentheses (c1 c2 pre g post : string) (tl : list string) :
  let col := pre +:+ String "(" (g +:+ String ")" post) in
  contains "gst" (lower col) = true ->
  occurs "(" pre = false ->
  occurs (chr 10) g = false ->
  occurs ")" post = false ->
  read_gst (EmptyString :: c1 :: col :: tl) =
    Ok (<[ "gst_val" := default col (last tl) ]> {[ "gst_pct" := g ]}) /\
  (contains "gst" (lower c2) = false ->
   read_gst (EmptyString :: c1 :: c2 :: col :: tl) =
     Ok (<[ "gst_val" := default col (last tl) ]> {[ "gst_pct" := g ]})).
Proof.
  intros col Hgst Hpre Hg Hpost.
  pose proof (re_search_parens_group pre g post Hpre Hg Hpost) as Hre.
  fold col in Hre.
  assert (Hlast : forall front,
            getitem_last (front ++ col :: tl) = Ok (default col (last tl))).
  { intros front. unfold getitem_last. destruct tl as [|t tl] using rev_ind.
    - rewrite last_snoc. reflexivity.
    - rewrite app_comm_cons, app_assoc, !last_snoc. reflexivity. }
  split; [|intros Hc2]; unfold read_gst, gst_fields; unfold_bind.
  - change (getitem (EmptyString :: c1 :: col :: tl) 0) with (@Ok string EmptyString).
    change (getitem (EmptyString :: c1 :: col :: tl) 2) with (@Ok string col).
    cbn beta iota. cbn [str_truthy]. rewrite Hgst, Hre.
    pose proof (Hlast [EmptyString; c1]) as HL. cbn [app] in HL.
    rewrite HL. reflexivity.
  - change (getitem (EmptyString :: c1 :: c2 :: col :: tl) 0) with (@Ok string EmptyString).
    change (getitem (EmptyString :: c1 :: c2 :: col :: tl) 2) with (@Ok string c2).
    change (getitem (EmptyString :: c1 :: c2 :: col :: tl) 3) with (@Ok string col).
    cbn beta iota. cbn [str_truthy]. rewrite Hc2, Hgst, Hre.
    pose proof (Hlast [EmptyString; c1; c2]) as HL. cbn [app] in HL.
    rewrite HL. reflexivity.
Qed.

Lemma read_gst_between_parentheses_witness :
  read_gst [ EmptyString; EmptyString; "GST (15%)"; EmptyString; "42.00" ] =
    Ok (<[ "gst_val" := "42.00" ]> {[ "gst_pct" := "15%" ]}).
Proof.
  exact (proj1 (read_gst_between_parentheses EmptyString EmptyString
                  "GST " "15%" EmptyString [ EmptyString; "42.00" ]
                  eq_refl eq_refl eq_refl eq_refl)).
Defined.

Lemma read_gst_result (row : list string) (g : gmap string string) :
  read_gst row = Ok g ->
  g = ∅ \/
  exists pct val, g = <[ "gst_val" := val ]> {[ "gst_pct" := pct ]} /\
                  last row = Some val.
Proof.
  unfold read_gst, gst_fields, getitem, getitem_last. unfold_bind.
  intros H. repeat case_match; simplify_eq; eauto.
Qed.

(** X7: a tax row adds nothing else to the header: what [read_gst] returns
    is empty or holds exactly [gst_pct] and [gst_val], the latter being the
    last cell of the row; a row with a non-empty first cell adds nothing. *)
Theorem read_gst_shape (row : list string) (g : gmap string string) :
  read_gst row = Ok g ->
  (g = ∅ \/
   exists pct val, g = <[ "gst_val" := val ]> {[ "gst_pct" := pct ]} /\
                   last row = Some val) /\
  (forall cell cells, row = cell :: cells -> cell <> EmptyString -> g = ∅).
Proof.
  intros H. split; [exact (read_gst_result row g H)|].
  intros cell cells -> Hcell. unfold read_gst, getitem in H. unfold_bind.
  simpl in H. destruct cell; [congruence|]. simpl in H. congruence.
Qed.

Lemma read_gst_shape_witness :
  read_gst [ "Subtotal"; "10.00" ] = Ok ∅ /\
  ((∅ : gmap string string) = ∅ \/
   exists pct val, (∅ : gmap string string) = <[ "gst_val" := val ]> {[ "gst_pct" := pct ]} /\
                   last [ "Subtotal"; "10.00" ] = Some val).
Proof.
  assert (H : read_gst [ "Subtotal"; "10.00" ] = Ok ∅) by reflexivity.
  split; [exact H|].
  exact (proj1 (read_gst_shape [ "Subtotal"; "10.00" ] ∅ H)).
Defined.

(** ** The entries *)








(** ** A well-formed invoice *)

Lemma read_loop_entry_rows (rows : list (list string)) :
  Forall first_cell_nonempty rows ->
  forall h ents,
    read_loop (MkLocals READ_ENTRIES h ents) rows =
      Ok (MkLocals READ_ENTRIES h (ents ++ rows)).
Proof.
  induction 1 as [|row rows ([c s] & cells & ->) _ IH]; intros h ents; simpl.
  - rewrite app_nil_r. reflexivity.
  - unfold read_row; simpl. unfold_bind. rewrite IH, <- app_assoc. reflexivity.
Qed.

Lemma read_gst_update_other (row : list string) (g h : gmap string string) (k : string) :
  read_gst row = Ok g -> k <> "gst_pct" -> k <> "gst_val" ->
  (g ∪ h) !! k = h !! k.
Proof.
  intros Hg Hp Hv. destruct (read_gst_result row g Hg) as [-> | (pct & val & -> & _)].
  - rewrite (left_id ∅ (∪)). reflexivity.
  - apply lookup_union_r. rewrite lookup_insert_ne by congruence.
    apply lookup_singleton_ne. congruence.
Qed.

Lemma read_loop_tax_rows (tax : list (list string)) :
  Forall (fun r => exists g, read_gst r = Ok g) tax ->
  forall h ents, exists h',
    read_loop (MkLocals READ_GST h ents) tax = Ok (MkLocals READ_GST h' ents) /\
    forall k, k <> "gst_pct" -> k <> "gst_val" -> h' !! k = h !! k.
Proof.
  induction 1 as [|row tax [g Hg] _ IH]; intros h ents; simpl.
  - eauto.
  - destruct row as [|c cells]; [discriminate|].
    unfold read_row; simpl. rewrite andb_false_r. unfold_bind. rewrite Hg.
    destruct (IH (g ∪ h) ents) as (h' & -> & Hh').
    exists h'. split; [reflexivity|]. intros k Hp Hv.
    rewrite (Hh' k Hp Hv). eapply read_gst_update_other; eassumption.
Qed.

Lemma first_present_ext (h h' : gmap string string) :
  (forall k, k ∈ invoice_number_keys -> h !! k = h' !! k) ->
  first_present h invoice_number_keys = first_present h' invoice_number_keys.
Proof.
  intros Hk. unfold first_present, invoice_number_keys in *. simpl.
  rewrite !Hk by (repeat constructor). reflexivity.
Qed.

Lemma resolve_of_first_present (h : gmap string string) (n : string) :
  first_present h invoice_number_keys = Some n ->
  resolve_invoice_number h = Ok n.
Proof.
  unfold first_present, invoice_number_keys, resolve_invoice_number. simpl.
  repeat case_match; simpl; congruence.
Qed.

Lemma number_key_other (k : string) :
  k ∈ invoice_number_keys ->
  k <> "Product" /\ k <> "gst_pct" /\ k <> "gst_val".
Proof.
  unfold invoice_number_keys. intros H.
  repeat (apply elem_of_cons in H; destruct H as [-> | H];
          [repeat split; discriminate|]).
  inversion H.
Qed.

Lemma read_loop_product_section (h0 : gmap string string) (product : string)
    (pcells : list string) :
  product ∈ SUPPORTED_PRODUCTS ->
  read_loop (MkLocals READ_HEADER h0 [])
            [ []; "Product" :: product :: pcells; [] ] =
    Ok (MkLocals READ_ENTRIES ({[ "Product" := product ]} ∪ h0) []).
Proof.
  intros Hprod. cbn [read_loop]. unfold_bind. unfold read_row at 1 2; simpl.
  unfold_bind. rewrite lookup_header_Product.
  rewrite bool_decide_eq_true_2 by exact Hprod. cbn [negb].
  unfold read_row; simpl. reflexivity.
Qed.

(** X9: a well-formed invoice parses.  After header rows that [read]
    accepts and that hold an invoice number [n] (under the first present of
    the three keys), a blank line, a row [Product,p] with a supported [p], a
    blank line, the row of column names and [N] data rows with non-empty
    first cells, and then tax rows that [read_gst] accepts, the first of
    them with an empty first cell: [read] returns [N] entries, each tagged
    with [n], and a header that holds [p] under [Product] and otherwise
    differs from the header section only in [gst_pct] and [gst_val]. *)
Theorem read_rows_well_formed (hdrs : list (list string)) (h0 : gmap string string)
    (product n : string) (pcells entry_header : list string)
    (data tax : list (list string)) :
  read_loop initial hdrs = Ok (MkLocals READ_HEADER h0 []) ->
  first_present h0 invoice_number_keys = Some n ->
  product ∈ SUPPORTED_PRODUCTS ->
  Forall first_cell_nonempty (entry_header :: data) ->
  Forall (fun r => exists g, read_gst r = Ok g) tax ->
  (forall r, head tax = Some r -> head r = Some EmptyString) ->
  exists h entries,
    read_rows (hdrs ++ [] :: ("Product" :: product :: pcells) :: [] ::
               entry_header :: data ++ tax) = Ok (h, entries) /\
    length entries = length data /\
    h !! "Product" = Some product /\
    (forall k, k <> "Product" -> k <> "gst_pct" -> k <> "gst_val" ->
               h !! k = h0 !! k) /\
    forall e, e ∈ entries -> e !! "Invoice number" = Some n.
Proof.
  intros Hhdrs Hn Hprod Hdata Htax Hfirst.
  set (h1 := {[ "Product" := product ]} ∪ h0).
  assert (Hh1 : forall k, k <> "Product" -> h1 !! k = h0 !! k).
  { intros k Hk. apply lookup_union_r, lookup_singleton_ne. congruence. }
  assert (Hh1p : h1 !! "Product" = Some product).
  { apply lookup_union_Some_l, lookup_singleton_eq. }
  (* the tax section, entered from the entries *)
  assert (Hgst : exists h,
    read_loop (MkLocals READ_ENTRIES h1 (entry_header :: data)) tax =
      Ok (MkLocals (match tax with [] => READ_ENTRIES | _ => READ_GST end) h
                   (entry_header :: data)) /\
    forall k, k <> "gst_pct" -> k <> "gst_val" -> h !! k = h1 !! k).
  { destruct tax as [|row tax]; [exists h1; split; [reflexivity | auto]|].
    apply Forall_cons in Htax as [[g Hg] Htax].
    specialize (Hfirst row eq_refl). destruct row as [|c cells]; [discriminate|].
    injection Hfirst as ->. cbn [read_loop]. unfold read_row; simpl. unfold_bind.
    rewrite Hg.
    destruct (read_loop_tax_rows tax Htax (g ∪ h1) (entry_header :: data))
      as (h & -> & Hh).
    exists h. split; [reflexivity|]. intros k Hp Hv. rewrite (Hh k Hp Hv).
    eapply read_gst_update_other; eassumption. }
  destruct Hgst as (h & Hloop & Hh).
  assert (Hkeys : first_present h invoice_number_keys = Some n).
  { rewrite <- Hn. apply first_present_ext. intros k Hk.
    destruct (number_key_other k Hk) as (Hk1 & Hk2 & Hk3).
    rewrite (Hh k Hk2 Hk3). apply Hh1, Hk1. }
  destruct (invoice_props.read_entries_cons n entry_header data)
    as (entries & Hentries & Hlen & Htag).
  exists h, entries. split; [|split; [exact Hlen|split; [|split; [|exact Htag]]]].
  - unfold read_rows.
    change (hdrs ++ [] :: ("Product" :: product :: pcells) :: [] ::
            entry_header :: data ++ tax)%list
      with (hdrs ++ [ []; "Product" :: product :: pcells; [] ] ++
            (entry_header :: data) ++ tax)%list.
    rewrite invoice_props.read_loop_app, Hhdrs. unfold_bind. cbn beta iota.
    rewrite invoice_props.read_loop_app.
    rewrite (read_loop_product_section h0 product pcells Hprod).
    unfold_bind. cbn beta iota. rewrite invoice_props.read_loop_app.
    rewrite (read_loop_entry_rows _ Hdata). unfold_bind. cbn beta iota. cbn [app].
    fold h1. rewrite Hloop.
    unfold read_finish. cbn [invoice_header invoice_entries]. unfold_bind.
    rewrite (resolve_of_first_present h n Hkeys), Hentries. reflexivity.
  - rewrite (Hh "Product") by discriminate. exact Hh1p.
  - intros k Hk Hp Hv. rewrite (Hh k Hp Hv). apply Hh1, Hk.
Qed.

Lemma read_rows_well_formed_witness :
  exists h entries,
    read_rows ([ [ "Invoice number"; "INV-1" ] ] ++ [] ::
               ("Product" :: "Campaign Manager" :: []) :: [] ::
               [ "Item"; "Qty" ] :: [ [ "Widget"; "2" ] ] ++
               [ [ EmptyString; EmptyString; "GST (15%)"; EmptyString; "3.00" ] ]) =
      Ok (h, entries) /\
    length entries = 1%nat /\
    h !! "Product" = Some "Campaign Manager" /\
    (forall k, k <> "Product" -> k <> "gst_pct" -> k <> "gst_val" ->
               h !! k = ({[ "Invoice number" := "INV-1" ]} : gmap string string) !! k) /\
    forall e, e ∈ entries -> e !! "Invoice number" = Some "INV-1".
Proof.
  apply (read_rows_well_formed [ [ "Invoice number"; "INV-1" ] ]
           {[ "Invoice number" := "INV-1" ]} "Campaign Manager" "INV-1" []
           [ "Item"; "Qty" ] [ [ "Widget"; "2" ] ]
           [ [ EmptyString; EmptyString; "GST (15%)"; EmptyString; "3.00" ] ]).
  - vm_compute. reflexivity.
  - vm_compute. reflexivity.
  - unfold SUPPORTED_PRODUCTS. right. left.
  - repeat constructor.
    + exists ("I"%char, "tem"), [ "Qty" ]. reflexivity.
    + exists ("W"%char, "idget"), [ "2" ]. reflexivity.
  - repeat constructor. eexists. vm_compute. reflexivity.
  - intros r [= <-]. reflexivity.
Defined.

(** ** A row that is not the product row *)

(** X21: after a well-formed header section and its blank line, a row that
    is not blank and whose first cell is not [product], whatever its case,
    makes [read] raise [ProductNotFoundError]. *)
Theorem read_rows_not_a_product_row (hdrs rest : list (list string)) (cell : string)
    (cells : list string) :
  Forall header_row hdrs ->
  lower cell <> "product" ->
  read_rows (hdrs ++ [] :: (cell :: cells) :: rest) =
    Raise (ProductNotFoundError "Product row not found").
Proof. apply invoice_props.read_rows_product_mismatch. Qed.

Lemma read_rows_not_a_product_row_witness :
  read_rows ([ [ "Invoice number"; "INV-1" ] ] ++ [] ::
             ("Item" :: [ "Qty" ]) :: [ [ "Widget"; "2" ] ]) =
    Raise (ProductNotFoundError "Product row not found").
Proof.
  apply (read_rows_not_a_product_row [ [ "Invoice number"; "INV-1" ] ]
           [ [ "Widget"; "2" ] ] "Item" [ "Qty" ]).
  - repeat constructor. exists "Invoice number", "INV-1", []. reflexivity.
  - discriminate.
Defined.

End invoice_more.

(* ===================================================================== *)
(** * Properties of the invoice workflows of [main.py]                    *)
(* ===================================================================== *)

Module main_props.
Import Py invoice_handler main Scenario.

Ltac unfold_bind := unfold mbind, result_bind, mret, result_ret in *.



(** A tax row that mentions GST without parentheses aborts the whole batch:
    the file before it was read, the files after it are not. *)
Example process_invoice_files_type_error :
  process_invoice_files empty_batch [ good_file; unparenthesised_gst_file; good_file ] =
    Raise TypeError.
Proof. vm_compute. reflexivity. Qed.

End main_props.

(* ===================================================================== *)
(** * Further properties of the Campaign Manager handler                  *)
(* ===================================================================== *)

Module cm_more.
Import Py IO cm_handler Scenario.

Ltac unfold_bind := unfold mbind, result_bind, mret, result_ret in *.

(** ** [_clean_up] and the records of a report *)

Lemma find_start_idx_first (pre rest : list (list string)) (sentinel : list string) :
  ~ has_sentinel pre ->
  head sentinel = Some "Report Fields" ->
  forall i, find_start_idx i (pre ++ sentinel :: rest) = Some (i + length pre + 1)%nat.
Proof.
  intros Hpre Hs. induction pre as [|row pre IH]; intros i; simpl.
  - destruct sentinel as [|cell cells]; [discriminate|].
    simpl in Hs. injection Hs as ->. simpl. f_equal. lia.
  - assert (Hpre' : ~ has_sentinel pre).
    { intros (r & Hin & Hr). apply Hpre. exists r. split; [right; exact Hin | exact Hr]. }
    destruct row as [|cell cells].
    + rewrite (IH Hpre'). f_equal. lia.
    + destruct (String.eqb cell "Report Fields") eqn:E.
      * apply String.eqb_eq in E as ->. exfalso. apply Hpre.
        eexists. split; [left|]. reflexivity.
      * rewrite (IH Hpre'). f_equal. lia.
Qed.

Lemma slice_to_last_middle {A : Type} (front body : list A) (total : A) :
  slice_to_last (front ++ body ++ [total]) (length front) = body.
Proof.
  unfold slice_to_last. rewrite drop_app_length.
  replace (length (front ++ body ++ [total]) - 1 - length front)%nat
    with (length body) by (rewrite !length_app; simpl; lia).
  apply take_app_length.
Qed.

Lemma slice_to_last_end {A : Type} (front : list A) :
  slice_to_last (front ++ []) (length front) = [].
Proof.
  unfold slice_to_last. rewrite drop_app_length. apply take_nil.
Qed.

Lemma clean_up_rows (pre body : list (list string)) (sentinel total : list string) :
  ~ has_sentinel pre ->
  head sentinel = Some "Report Fields" ->
  _clean_up (pre ++ sentinel :: body ++ [total]) = Ok body /\
  _clean_up (pre ++ [sentinel]) = Ok [].
Proof.
  intros Hpre Hs. unfold _clean_up.
  rewrite !(find_start_idx_first pre _ sentinel Hpre Hs).
  replace (0 + length pre + 1)%nat with (length (pre ++ [sentinel]))
    by (rewrite length_app; simpl; lia).
  split; f_equal.
  - replace (pre ++ sentinel :: body ++ [total])%list
      with ((pre ++ [sentinel]) ++ body ++ [total])%list
      by (rewrite <- app_assoc; reflexivity).
    apply slice_to_last_middle.
  - replace (pre ++ [sentinel])%list with ((pre ++ [sentinel]) ++ [])%list at 1
      by apply app_nil_r.
    apply slice_to_last_end.
Qed.

(** X10: [_clean_up] returns the rows strictly between the first row that
    starts with [Report Fields] and the last row of the payload; when the
    sentinel row is itself the last row it returns no row. *)
Theorem clean_up_between (pre body : list (list string)) (sentinel total : list string) :
  ~ has_sentinel pre ->
  head sentinel = Some "Report Fields" ->
  _clean_up (pre ++ sentinel :: body ++ [total]) = Ok body /\
  _clean_up (pre ++ [sentinel]) = Ok [].
Proof. apply clean_up_rows. Qed.

Lemma clean_up_between_witness :
  _clean_up ([ [ "Campaign Manager report" ]; [] ] ++ [ "Report Fields" ] ::
             [ [ "Advertiser"; "Clicks" ]; [ "acme"; "3" ] ] ++
             [ [ "Grand Total:"; "3" ] ]) =
    Ok [ [ "Advertiser"; "Clicks" ]; [ "acme"; "3" ] ] /\
  _clean_up ([ [ "Campaign Manager report" ]; [] ] ++ [ [ "Report Fields" ] ]) = Ok [].
Proof.
  apply (clean_up_between [ [ "Campaign Manager report" ]; [] ]
           [ [ "Advertiser"; "Clicks" ]; [ "acme"; "3" ] ]
           [ "Report Fields" ] [ "Grand Total:"; "3" ]).
  - apply (cm_props.find_start_idx_None _ 0%nat). reflexivity.
  - reflexivity.
Defined.

(** X11: the records of a downloaded report.  When the rows of the payload
    are a prefix without sentinel, the sentinel row, a heading, data rows
    and a last row, the report yields one record per data row, which maps
    the names of the heading to the cells of the row; when nothing or only
    one row follows the sentinel row there is no heading and indexing it
    raises [IndexError]. *)
Theorem report_data_objects_rows (payload : string) (pre data : list (list string))
    (sentinel heading total : list string) :
  ~ has_sentinel pre ->
  head sentinel = Some "Report Fields" ->
  (Csv.reader_rows (splitlines payload) =
     (pre ++ sentinel :: (heading :: data) ++ [total])%list ->
   report_data_objects payload =
     Ok ((fun row => dict_of_pairs (zip heading row)) <$> data)) /\
  (Csv.reader_rows (splitlines payload) = (pre ++ [sentinel])%list \/
   Csv.reader_rows (splitlines payload) = (pre ++ sentinel :: [] ++ [total])%list ->
   report_data_objects payload = Raise IndexError).
Proof.
  intros Hpre Hs. unfold report_data_objects. split.
  - intros ->. rewrite (proj1 (clean_up_rows pre (heading :: data) sentinel total Hpre Hs)).
    reflexivity.
  - intros [-> | ->].
    + rewrite (proj2 (clean_up_rows pre [] sentinel total Hpre Hs)). reflexivity.
    + rewrite (proj1 (clean_up_rows pre [] sentinel total Hpre Hs)). reflexivity.
Qed.

Lemma report_data_objects_rows_witness :
  report_data_objects report_payload =
    Ok [ dict_of_pairs [ ("Advertiser", "acme"); ("Clicks", "3") ] ].
Proof.
  apply (proj1 (report_data_objects_rows report_payload
                  [ [ "Campaign Manager report" ] ] [ [ "acme"; "3" ] ]
                  [ "Report Fields" ] [ "Advertiser"; "Clicks" ]
                  [ "Grand Total:"; "3" ]
                  ltac:(apply (cm_props.find_start_idx_None _ 0%nat); reflexivity)
                  eq_refl)).
  vm_compute. reflexivity.
Defined.

(** ** The polling loop: how it ends, and what it does meanwhile *)

Lemma poll_report_file_finishes (svc : Service) :
  (forall n, 0 <= latency svc n) ->
  forall fuel sleep start_time w,
    sleep = 0 \/ MIN_RETRY_INTERVAL <= sleep <= MAX_RETRY_INTERVAL ->
    start_time + MAX_RETRY_ELAPSED_TIME - clock w < 10 * Z.of_nat fuel ->
    poll_finished (poll_report_file svc (S fuel) sleep start_time w).
Proof.
  intros Hlat. induction fuel as [|fuel IH]; intros sleep start_time w Hsleep Hleft;
    rewrite cm_props.poll_report_file_tick; cbn zeta;
    pose proof (Hlat (calls w)) as Hl;
    (destruct (String.eqb _ "REPORT_AVAILABLE") eqn:Ea;
       [apply String.eqb_eq in Ea; exact Ea|]);
    (destruct (negb _); [left; reflexivity|]);
    cbn [after_call clock];
    (destruct (Z.ltb_spec MAX_RETRY_ELAPSED_TIME
                 (clock w + latency svc (calls w) - start_time)) as [Hlate | Hearly];
       [right; reflexivity|]).
  - lia.
  - destruct (cm_props.next_sleep_interval_inv sleep (entropy svc (draws w)) Hsleep)
      as (next & -> & Hnext).
    unfold MIN_RETRY_INTERVAL in Hnext.
    destruct (Z.ltb_spec next 0) as [Hneg | _]; [lia|].
    apply IH; [right; unfold MIN_RETRY_INTERVAL; exact Hnext|].
    cbn [after_sleep clock]. lia.
Qed.

(** X12: whatever statuses the service reports and whatever the random
    draws are, as long as its calls take no negative time the polling of
    [run_report_and_wait] ends within 362 status requests, and it ends in
    one of three ways: the file is available, [ReportRunError], or
    [ReportRunDeadlineExceeded]. *)
Theorem run_report_and_wait_finishes (svc : Service) (w : World) :
  (forall n, 0 <= latency svc n) ->
  poll_finished (run_report_and_wait svc 362 w).
Proof.
  intros Hlat. unfold run_report_and_wait.
  unfold mbind, M_bind, call, time_time, global_name.
  rewrite cm_props.time_is_bound.
  apply (poll_report_file_finishes svc Hlat 361).
  - left. reflexivity.
  - cbn [clock]. unfold MAX_RETRY_ELAPSED_TIME. lia.
Qed.

Lemma run_report_and_wait_finishes_witness :
  poll_finished (run_report_and_wait available_at_third 362 world0).
Proof.
  apply (run_report_and_wait_finishes available_at_third world0).
  intros n. simpl. lia.
Defined.

Lemma backoff_from_step (sleep e : Z) :
  sleep = 0 \/ MIN_RETRY_INTERVAL <= sleep <= MAX_RETRY_INTERVAL ->
  exists next,
    _next_sleep_interval sleep e = Ok next /\
    MIN_RETRY_INTERVAL <= next <= MAX_RETRY_INTERVAL /\
    (if sleep =? 0 then next = MIN_RETRY_INTERVAL
     else sleep <= next /\ next <= Z.min (3 * sleep) MAX_RETRY_INTERVAL).
Proof.
  intros [-> | H].
  - rewrite cm_props.next_sleep_interval_first. eexists. split; [reflexivity|].
    split; [unfold MIN_RETRY_INTERVAL, MAX_RETRY_INTERVAL; lia | reflexivity].
  - destruct (cm_props.next_sleep_interval_step sleep e H) as (next & -> & Hn).
    eexists. split; [reflexivity|].
    unfold MIN_RETRY_INTERVAL, MAX_RETRY_INTERVAL in *.
    destruct (Z.eqb_spec sleep 0); lia.
Qed.

(** X13: the trace of the polling loop of [run_report_and_wait].  Whatever
    the service answers, every status request but the last is followed by
    exactly one sleep before the next request; each sleep lasts between
    [MIN_RETRY_INTERVAL] and [MAX_RETRY_INTERVAL] seconds, and the sleeps
    follow the backoff schedule. *)
Theorem poll_report_file_trace (svc : Service) :
  forall fuel sleep start_time w,
    sleep = 0 \/ MIN_RETRY_INTERVAL <= sleep <= MAX_RETRY_INTERVAL ->
    let o := poll_report_file svc fuel sleep start_time w in
    exists intervals,
      trace (world_of o) =
        (trace w ++ requests_with_sleeps intervals ++ last_request o)%list /\
      backoff_from sleep intervals /\
      Forall (fun secs => MIN_RETRY_INTERVAL <= secs <= MAX_RETRY_INTERVAL) intervals.
Proof.
  induction fuel as [|fuel IH]; intros sleep start_time w Hsleep o; subst o.
  - exists []. simpl. rewrite app_nil_r. repeat split. constructor.
  - rewrite cm_props.poll_report_file_tick. cbn zeta.
    destruct (String.eqb _ "REPORT_AVAILABLE");
      [exists []; simpl; repeat split; constructor|].
    destruct (negb _); [exists []; simpl; repeat split; constructor|].
    destruct (MAX_RETRY_ELAPSED_TIME <? _);
      [exists []; simpl; repeat split; constructor|].
    destruct (backoff_from_step sleep (entropy svc (draws w)) Hsleep)
      as (next & -> & Hnext & Hstep).
    destruct (Z.ltb_spec next 0) as [Hneg | _];
      [unfold MIN_RETRY_INTERVAL in Hnext; lia|].
    destruct (IH next start_time (after_sleep svc w next) (or_intror Hnext))
      as (intervals & Htrace & Hback & Hall).
    exists (next :: intervals). split; [|split].
    + rewrite Htrace. cbn [after_sleep trace requests_with_sleeps fmap list_fmap concat].
      rewrite <- !app_assoc. reflexivity.
    + split; assumption.
    + constructor; assumption.
Qed.

Lemma poll_report_file_trace_witness :
  exists intervals,
    trace (world_of (poll_report_file available_at_third 5 0 0 world0)) =
      (trace world0 ++ requests_with_sleeps intervals ++
       last_request (poll_report_file available_at_third 5 0 0 world0))%list /\
    backoff_from 0 intervals /\
    Forall (fun secs => MIN_RETRY_INTERVAL <= secs <= MAX_RETRY_INTERVAL) intervals.
Proof.
  apply (poll_report_file_trace available_at_third 5 0 0 world0).
  left. reflexivity.
Defined.

(** ** [get_accounts] *)

Lemma get_accounts_loop_spec (items : list UserProfile) :
  forall accounts details,
    accounts = account_id <$> details ->
    NoDup accounts ->
    let result := get_accounts_loop accounts details items in
    NoDup (account_id <$> result) /\
    (forall a, a ∈ (account_id <$> result) <->
               a ∈ accounts \/ a ∈ (accountId <$> items)) /\
    (forall d, d ∈ result ->
       d ∈ details \/
       exists before i after,
         items = (before ++ i :: after)%list /\
         d = MkAccountDetails (accountId i) (profileId i) /\
         (accountId i ∉ accounts) /\
         accountId i ∉ (accountId <$> before)).
Proof.
  induction items as [|i items IH]; intros accounts details Hacc Hnd; simpl.
  - subst accounts. split; [exact Hnd|]. split.
    + intros a. split; [auto | intros [H | H]; [exact H | inversion H]].
    + auto.
  - destruct (decide (accountId i ∈ accounts)) as [Hin | Hnin].
    + rewrite bool_decide_eq_true_2 by exact Hin.
      destruct (IH accounts details Hacc Hnd) as (Hn & Hmem & Hfirst).
      split; [exact Hn|]. split.
      * intros a. rewrite Hmem, elem_of_cons. split; [tauto|].
        intros [H | [-> | H]]; tauto.
      * intros d Hd. destruct (Hfirst d Hd) as [H | (before & j & after & -> & -> & Hj & Hb)];
          [left; exact H|].
        right. exists (i :: before), j, after. repeat split; auto.
        rewrite fmap_cons. apply not_elem_of_cons. split; [|exact Hb].
        intros Heq. apply Hj. rewrite Heq. exact Hin.
    + rewrite bool_decide_eq_false_2 by exact Hnin.
      destruct (IH (accounts ++ [accountId i])%list
                   (details ++ [MkAccountDetails (accountId i) (profileId i)])%list)
        as (Hn & Hmem & Hfirst).
      { rewrite fmap_app, Hacc. reflexivity. }
      { apply NoDup_app. split; [exact Hnd|]. split; [|apply NoDup_singleton].
        intros x Hx Hx'. apply list_elem_of_singleton in Hx' as ->. contradiction. }
      split; [exact Hn|]. split.
      * intros a. rewrite Hmem, elem_of_app, list_elem_of_singleton, elem_of_cons.
        tauto.
      * intros d Hd.
        destruct (Hfirst d Hd) as [H | (before & j & after & -> & -> & Hj & Hb)].
        -- apply elem_of_app in H as [H | H]; [left; exact H|].
           apply list_elem_of_singleton in H as ->.
           right. exists [], i, items. repeat split; [exact Hnin|].
           apply not_elem_of_nil.
        -- right. exists (i :: before), j, after.
           apply not_elem_of_app in Hj as [Hj Hji]. repeat split; auto.
           rewrite fmap_cons. apply not_elem_of_cons. split; [|exact Hb].
           intros Heq. apply Hji. rewrite Heq. apply list_elem_of_singleton. reflexivity.
Qed.

(** X14: [get_accounts] lists every account of the profiles exactly once,
    each with the profile id of the first profile of that account. *)
Theorem get_accounts_first_profile (items : list UserProfile) :
  NoDup (account_id <$> get_accounts items) /\
  (forall a, a ∈ (account_id <$> get_accounts items) <->
             a ∈ (accountId <$> items)) /\
  (forall d, d ∈ get_accounts items ->
     exists before i after,
       items = (before ++ i :: after)%list /\
       d = MkAccountDetails (accountId i) (profileId i) /\
       accountId i ∉ (accountId <$> before)).
Proof.
  destruct (get_accounts_loop_spec items [] [] eq_refl NoDup_nil_2)
    as (Hn & Hmem & Hfirst).
  split; [exact Hn|]. split.
  - intros a. rewrite (Hmem a). split; [intros [H | H]; [inversion H | exact H] | auto].
  - intros d Hd. destruct (Hfirst d Hd) as [H | (before & i & after & H1 & H2 & _ & H3)];
      [inversion H|]. eauto 10.
Qed.

Example get_accounts_listed :
  get_accounts listed_profiles =
    [ MkAccountDetails "acct-1" "p-1"; MkAccountDetails "acct-2" "p-2" ].
Proof. vm_compute. reflexivity. Qed.

End cm_more.

(* ===================================================================== *)
(** * Further properties of the DV360 handler                             *)
(* ===================================================================== *)

Module dv360_more.
Import Py IO dv360_handler Scenario.

Ltac unfold_bind := unfold mbind, result_bind, mret, result_ret in *.

(** ** When the multi-job wait returns *)







(** ** The timezone wait *)

(** X17: [create_timezone_report] sends exactly one status request.  If
    the query is then completed it returns the report locator, if it has
    failed it raises [ReportError], and if it is still running the
    evaluation of [time.sleep] raises [NameError], since the module does
    not import [time]: the report is never polled a second time. *)
Theorem create_timezone_report_first_status (svc : Service) (fuel : nat) (w : World) :
  let query_id := createquery svc (calls w) in
  let w1 := MkWorld (clock w + latency svc (calls w)) (S (calls w)) (draws w)
                    (trace w ++ [EvCall "queries.createquery" EmptyString]) in
  let m := getquery svc (S (calls w)) query_id in
  let run := create_timezone_report svc (S fuel) w in
  (is_true (running m) = false ->
   forall u, googleCloudStoragePathForLatestReport m = Some u -> u <> EmptyString ->
             run = Returned u (after_getquery svc w1 query_id)) /\
  (observed_failed m -> run = Raised ReportError (after_getquery svc w1 query_id)) /\
  (is_true (running m) = true ->
   run = Raised (NameError "time") (after_getquery svc w1 query_id)).
Proof.
  intros query_id w1 m run. subst run m query_id w1.
  unfold create_timezone_report. unfold mbind at 1, M_bind at 1, call at 1.
  cbn [wait_for_timezone_report].
  unfold _get_report_status, mbind, M_bind, call, mret, M_ret, lift.
  cbn [calls clock draws trace]. unfold classify, url_truthy, after_getquery.
  cbn [calls clock draws trace].
  split; [|split].
  - intros Hr u Hu Hne. rewrite Hr, Hu. destruct u as [|c u]; [congruence|].
    reflexivity.
  - intros [Hr Hu]. unfold url_truthy in Hu. rewrite Hr. cbn [negb andb].
    destruct (googleCloudStoragePathForLatestReport _) as [[|c u]|];
      try discriminate; reflexivity.
  - intros Hr. rewrite Hr. reflexivity.
Qed.

Lemma create_timezone_report_first_status_witness :
  create_timezone_report slow_running_job 5 world0 =
    Raised (NameError "time")
      (after_getquery slow_running_job
         (MkWorld 4000 1 0 [ EvCall "queries.createquery" EmptyString ]) "q1").
Proof.
  exact (proj2 (proj2 (create_timezone_report_first_status slow_running_job 4 world0))
           eq_refl).
Defined.

(** ** What the multi-job wait does while it waits *)

Lemma rounds_succ (k : nat) (query_ids : list string) :
  ((EvCall "queries.getquery" <$> query_ids) ++ rounds k query_ids)%list =
    rounds (S k) query_ids.
Proof. reflexivity. Qed.

(** X22: the trace of the multi-job wait is a number of whole rounds of
    status requests and nothing else: every round asks for every query id
    again, in the order of the ids, and no sleep separates two rounds. *)
Theorem wait_for_reports_whole_rounds (svc : Service) (query_ids : list string) :
  forall fuel w, exists k,
    (k <= fuel)%nat /\
    trace (world_of (wait_for_reports_to_complete svc fuel query_ids w)) =
      (trace w ++ rounds k query_ids)%list.
Proof.
  induction fuel as [|fuel IH]; intros w.
  - exists 0%nat. split; [lia|]. simpl. rewrite app_nil_r. reflexivity.
  - cbn [wait_for_reports_to_complete]. unfold mbind at 1, M_bind at 1.
    rewrite dv360_props.get_reports_status_run. unfold mbind, M_bind, lift.
    assert (Hone : trace (after_round svc w query_ids) =
                     (trace w ++ rounds 1 query_ids)%list).
    { rewrite dv360_props.after_round_trace. unfold rounds. simpl.
      rewrite app_nil_r. reflexivity. }
    destruct (for_each (status_is "Completed") _) as [flags|e];
      [|exists 1%nat; split; [lia | exact Hone]].
    destruct (forallb id flags).
    + destruct (for_each _ _); exists 1%nat; (split; [lia | exact Hone]).
    + destruct (IH (after_round svc w query_ids)) as (k & Hk & Htrace).
      exists (S k). split; [lia|].
      rewrite Htrace, dv360_props.after_round_trace, <- app_assoc.
      rewrite rounds_succ. reflexivity.
Qed.

(** X23: as long as one query of the batch is observed failed at every
    poll, the multi-job wait neither returns nor raises: whatever the fuel,
    it is still polling. *)
Theorem wait_for_reports_polls_failed (svc : Service) (query_ids : list string) :
  (exists q, q ∈ query_ids /\ forall k, observed_failed (getquery svc k q)) ->
  forall fuel w, exists w',
    wait_for_reports_to_complete svc fuel query_ids w = Polling w'.
Proof. apply dv360_props.wait_for_reports_stuck_on_failed. Qed.

Lemma wait_for_reports_polls_failed_witness :
  exists w',
    wait_for_reports_to_complete failed_job 7 [ "q0"; "q1" ] world0 = Polling w'.
Proof.
  apply (wait_for_reports_polls_failed failed_job [ "q0"; "q1" ]).
  exists "q1". split.
  - right. left.
  - intros k. split; reflexivity.
Defined.

End dv360_more.

(* ===================================================================== *)
(** * Properties of [utils/util.py]                                       *)
(* ===================================================================== *)

Module util_props.
Import Py util Scenario.

Ltac unfold_bind := unfold mbind, result_bind, mret, result_ret in *.

Lemma valid_rows_loop_keeps (rows : list (list string)) (tail : list (list string)) :
  Forall first_cell_nonempty rows ->
  valid_rows_loop (rows ++ tail) = (rows ++ valid_rows_loop tail)%list.
Proof.
  induction 1 as [|row rows ([c s] & cells & ->) _ IH]; simpl; [reflexivity|].
  rewrite IH. reflexivity.
Qed.

Lemma valid_rows_loop_all (rows : list (list string)) :
  Forall first_cell_nonempty rows -> valid_rows_loop rows = rows.
Proof.
  induction 1 as [|row rows ([c s] & cells & ->) _ IH]; simpl; [reflexivity|].
  rewrite IH. reflexivity.
Qed.

Lemma valid_rows_loop_stop (stop : list string) (rest : list (list string)) :
  stop_row stop -> valid_rows_loop (stop :: rest) = [].
Proof.
  intros [-> | Hs]; [reflexivity|].
  destruct stop as [|cell cells]; [reflexivity|].
  simpl in Hs. injection Hs as ->. reflexivity.
Qed.

(** X18: [get_valid_rows] keeps the rows before the first row that is
    blank or has an empty first cell, whatever follows that row, and turns
    every kept row but the first into a record over the names of the first
    row; when already the first row is such a row, or there is no row at
    all, it raises [IndexError]. *)
Theorem get_valid_rows_of_stops (header : list string) (data rest : list (list string))
    (stop : list string) :
  Forall first_cell_nonempty (header :: data) ->
  stop_row stop ->
  get_valid_rows_of (header :: data ++ stop :: rest) =
    Ok ((fun row => dict_of_pairs (zip header row)) <$> data) /\
  get_valid_rows_of (header :: data) =
    Ok ((fun row => dict_of_pairs (zip header row)) <$> data) /\
  get_valid_rows_of (stop :: rest) = Raise IndexError /\
  get_valid_rows_of [] = Raise IndexError.
Proof.
  intros Hrows Hstop. unfold get_valid_rows_of.
  change (header :: data ++ stop :: rest)%list
    with ((header :: data) ++ stop :: rest)%list.
  rewrite (valid_rows_loop_keeps _ (stop :: rest) Hrows).
  rewrite (valid_rows_loop_stop stop rest Hstop), app_nil_r.
  rewrite (valid_rows_loop_all _ Hrows).
  repeat split; reflexivity.
Qed.

Lemma get_valid_rows_of_stops_witness :
  get_valid_rows_of ([ "Advertiser ID"; "Advertiser Time Zone" ] ::
                     [ [ "11"; "Pacific/Auckland" ] ] ++
                     [ EmptyString; "extra" ] :: [ [ "99"; "ignored" ] ]) =
    Ok ((fun row => dict_of_pairs (zip [ "Advertiser ID"; "Advertiser Time Zone" ] row))
          <$> [ [ "11"; "Pacific/Auckland" ] ]).
Proof.
  apply (get_valid_rows_of_stops [ "Advertiser ID"; "Advertiser Time Zone" ]
           [ [ "11"; "Pacific/Auckland" ] ] [ [ "99"; "ignored" ] ]
           [ EmptyString; "extra" ]).
  - repeat constructor.
    + exists ("A"%char, "dvertiser ID"), [ "Advertiser Time Zone" ]. reflexivity.
    + exists ("1"%char, "1"), [ "Pacific/Auckland" ]. reflexivity.
  - right. reflexivity.
Defined.

End util_props.

(* ===================================================================== *)
(** * Properties of the DV360 report creation                             *)
(* ===================================================================== *)

Module dv360_reports.
Import Py IO dv360_handler Scenario.

Ltac unfold_bind := unfold mbind, result_bind, mret, result_ret in *.

(** ** Appending to a group *)

Section append_to.
Context {V : Type}.
Implicit Types (d : list (string * list V)) (k : string) (x : V).

Lemma append_to_nil k x : PyDict.append_to [] k x = [(k, [x])].
Proof. reflexivity. Qed.

Lemma append_to_cons k' (g' : list V) d k x :
  PyDict.append_to ((k', g') :: d) k x =
    if String.eqb k' k then (k', g' ++ [x])%list :: d
    else (k', g') :: PyDict.append_to d k x.
Proof.
  unfold PyDict.append_to. simpl. destruct (String.eqb k' k); reflexivity.
Qed.

Lemma append_to_keys d k x t :
  t ∈ (PyDict.append_to d k x).*1 <-> t ∈ d.*1 \/ t = k.
Proof.
  induction d as [|[k' g'] d IH].
  - rewrite append_to_nil. simpl. rewrite list_elem_of_singleton.
    split; [auto | intros [H | H]; [inversion H | exact H]].
  - rewrite append_to_cons. destruct (String.eqb_spec k' k) as [-> | Hne]; simpl.
    + rewrite !elem_of_cons. tauto.
    + rewrite !elem_of_cons, IH. tauto.
Qed.

Lemma append_to_NoDup d k x :
  NoDup d.*1 -> NoDup (PyDict.append_to d k x).*1.
Proof.
  induction d as [|[k' g'] d IH]; intros Hnd.
  - rewrite append_to_nil. apply NoDup_singleton.
  - rewrite append_to_cons. simpl in Hnd. apply NoDup_cons in Hnd as [Hk' Hnd].
    destruct (String.eqb_spec k' k) as [-> | Hne]; simpl.
    + apply NoDup_cons. auto.
    + apply NoDup_cons. split; [|apply IH, Hnd].
      rewrite append_to_keys. intros [H | H]; [contradiction | congruence].
Qed.

Lemma append_to_concat d k x :
  concat (PyDict.append_to d k x).*2 ≡ₚ (concat d.*2 ++ [x])%list.
Proof.
  induction d as [|[k' g'] d IH].
  - reflexivity.
  - rewrite append_to_cons. destruct (String.eqb k' k); simpl.
    + rewrite <- !app_assoc. apply Permutation_app_head, Permutation_app_comm.
    + rewrite IH, app_assoc. reflexivity.
Qed.

Lemma append_to_groups d k x t (f : V) :
  (exists g, (t, g) ∈ PyDict.append_to d k x /\ f ∈ g) <->
  (exists g, (t, g) ∈ d /\ f ∈ g) \/ (t = k /\ f = x).
Proof.
  induction d as [|[k' g'] d IH].
  - rewrite append_to_nil. split.
    + intros (g & Hin & Hf). apply list_elem_of_singleton in Hin as [= -> ->].
      apply list_elem_of_singleton in Hf. auto.
    + intros [(g & Hin & _) | [-> ->]]; [inversion Hin|].
      exists [x]. split; apply list_elem_of_singleton; reflexivity.
  - rewrite append_to_cons. destruct (String.eqb_spec k' k) as [-> | Hne].
    + split.
      * intros (g & Hin & Hf). apply elem_of_cons in Hin as [[= -> ->] | Hin].
        -- apply elem_of_app in Hf as [Hf | Hf].
           ++ left. exists g'. split; [left | exact Hf].
           ++ apply list_elem_of_singleton in Hf. auto.
        -- left. exists g. split; [right; exact Hin | exact Hf].
      * intros [(g & Hin & Hf) | [-> ->]].
        -- apply elem_of_cons in Hin as [[= -> ->] | Hin].
           ++ exists (g' ++ [x])%list. split; [left|]. apply elem_of_app. auto.
           ++ exists g. split; [right; exact Hin | exact Hf].
        -- exists (g' ++ [x])%list. split; [left|].
           apply elem_of_app. right. apply list_elem_of_singleton. reflexivity.
    + split.
      * intros (g & Hin & Hf). apply elem_of_cons in Hin as [[= -> ->] | Hin].
        -- left. exists g'. split; [left | exact Hf].
        -- destruct (proj1 IH (ex_intro _ g (conj Hin Hf)))
             as [(g0 & Hin0 & Hf0) | H]; [|auto].
           left. exists g0. split; [right; exact Hin0 | exact Hf0].
      * intros [(g & Hin & Hf) | H].
        -- apply elem_of_cons in Hin as [[= -> ->] | Hin].
           ++ exists g'. split; [left | exact Hf].
           ++ destruct (proj2 IH (or_introl (ex_intro _ g (conj Hin Hf))))
                as (g0 & Hin0 & Hf0).
              exists g0. split; [right; exact Hin0 | exact Hf0].
        -- destruct (proj2 IH (or_intror H)) as (g0 & Hin0 & Hf0).
           exists g0. split; [right; exact Hin0 | exact Hf0].
Qed.

End append_to.

(** ** Grouping the advertisers by timezone *)

Lemma get_query_filters_from_spec (adv_timezone : list (string * string)) :
  forall filters,
    NoDup filters.*1 ->
    let result := _get_query_filters_from filters adv_timezone in
    NoDup result.*1 /\
    concat result.*2 ≡ₚ
      (concat filters.*2 ++ (advertiser_filter <$> adv_timezone.*1))%list /\
    (forall t, t ∈ result.*1 <-> t ∈ filters.*1 \/ t ∈ adv_timezone.*2) /\
    (forall t f,
       (exists g, (t, g) ∈ result /\ f ∈ g) <->
       (exists g, (t, g) ∈ filters /\ f ∈ g) \/
       (exists adv, (adv, t) ∈ adv_timezone /\ f = advertiser_filter adv)).
Proof.
  induction adv_timezone as [|[adv tz] rest IH]; intros filters Hnd; simpl.
  - split; [exact Hnd|]. split; [rewrite app_nil_r; reflexivity|]. split.
    + intros t. split; [auto | intros [H | H]; [exact H | inversion H]].
    + intros t f. split; [auto|].
      intros [H | (a & Hin & _)]; [exact H | inversion Hin].
  - destruct (IH (PyDict.append_to filters tz (advertiser_filter adv))
                 (append_to_NoDup _ _ _ Hnd)) as (Hn & Hperm & Hkeys & Hgroups).
    split; [exact Hn|]. split; [|split].
    + rewrite Hperm, append_to_concat, <- app_assoc. reflexivity.
    + intros t. rewrite Hkeys, append_to_keys, elem_of_cons. tauto.
    + intros t f. rewrite Hgroups, append_to_groups. split.
      * intros [[H | [-> ->]] | (a & Hin & Hf)]; [auto | |].
        -- right. exists adv. split; [left | reflexivity].
        -- right. exists a. split; [right; exact Hin | exact Hf].
      * intros [H | (a & Hin & Hf)]; [auto|].
        apply elem_of_cons in Hin as [[= -> ->] | Hin]; [auto|].
        right. exists a. auto.
Qed.

(** X19: [_get_query_filters] partitions the advertisers by timezone.
    The result has every timezone of [adv_timezone] as a key, once and only
    those; the filters of all groups together are the advertiser filters of
    [adv_timezone], each as often as its advertiser occurs; and a filter is
    in the group of a timezone exactly when it is the filter of an
    advertiser of that timezone. *)
Theorem get_query_filters_partition (adv_timezone : list (string * string)) :
  let filters := _get_query_filters adv_timezone in
  NoDup filters.*1 /\
  (forall t, t ∈ filters.*1 <-> t ∈ adv_timezone.*2) /\
  concat filters.*2 ≡ₚ advertiser_filter <$> adv_timezone.*1 /\
  (forall t f,
     (exists g, (t, g) ∈ filters /\ f ∈ g) <->
     (exists adv, (adv, t) ∈ adv_timezone /\ f = advertiser_filter adv)).
Proof.
  destruct (get_query_filters_from_spec adv_timezone [] (NoDup_nil_2))
    as (Hn & Hperm & Hkeys & Hgroups).
  split; [exact Hn|]. split; [|split].
  - intros t. rewrite (Hkeys t). split; [intros [H | H]; [inversion H | exact H] | auto].
  - exact Hperm.
  - intros t f. rewrite (Hgroups t f).
    split; [intros [(g & H & _) | H]; [inversion H | exact H] | auto].
Qed.

Example get_query_filters_two_timezones :
  _get_query_filters [ ("11", "Pacific/Auckland"); ("22", "Europe/Paris");
                       ("33", "Pacific/Auckland") ] =
    [ ("Pacific/Auckland", [ advertiser_filter "11"; advertiser_filter "33" ]);
      ("Europe/Paris", [ advertiser_filter "22" ]) ].
Proof. reflexivity. Qed.

(** ** The timezone of every advertiser *)

Section setitem.
Context {V : Type}.
Implicit Types (d : list (string * V)) (k : string) (v : V).

Lemma setitem_keys d k v t :
  t ∈ (PyDict.setitem d k v).*1 <-> t ∈ d.*1 \/ t = k.
Proof.
  induction d as [|[k' v'] d IH]; simpl.
  - rewrite list_elem_of_singleton.
    split; [auto | intros [H | H]; [inversion H | exact H]].
  - destruct (String.eqb_spec k' k) as [-> | Hne]; simpl.
    + rewrite !elem_of_cons. tauto.
    + rewrite !elem_of_cons, IH. tauto.
Qed.

Lemma setitem_NoDup d k v : NoDup d.*1 -> NoDup (PyDict.setitem d k v).*1.
Proof.
  induction d as [|[k' v'] d IH]; intros Hnd; simpl.
  - apply NoDup_singleton.
  - simpl in Hnd. apply NoDup_cons in Hnd as [Hk' Hnd].
    destruct (String.eqb_spec k' k) as [-> | Hne]; simpl.
    + apply NoDup_cons. auto.
    + apply NoDup_cons. split; [|apply IH, Hnd].
      rewrite setitem_keys. intros [H | H]; [contradiction | congruence].
Qed.

Lemma get_setitem_eq d k v : PyDict.get (PyDict.setitem d k v) k = Some v.
Proof.
  induction d as [|[k' v'] d IH]; simpl.
  - rewrite String.eqb_refl. reflexivity.
  - destruct (String.eqb k' k) eqn:E; simpl; rewrite E; [reflexivity | exact IH].
Qed.

Lemma get_setitem_ne d k v k0 :
  k0 <> k -> PyDict.get (PyDict.setitem d k v) k0 = PyDict.get d k0.
Proof.
  intros Hne. induction d as [|[k' v'] d IH]; simpl.
  - destruct (String.eqb_spec k k0); [congruence | reflexivity].
  - destruct (String.eqb_spec k' k) as [-> | Hk]; simpl.
    + destruct (String.eqb_spec k k0); [congruence | reflexivity].
    + destruct (String.eqb k' k0); [reflexivity | exact IH].
Qed.

End setitem.

Lemma adv_timezone_from_spec (valid_rows : list (gmap string string)) :
  forall acc,
    NoDup acc.*1 ->
    match adv_timezone_from acc valid_rows with
    | Ok adv_timezone =>
        NoDup adv_timezone.*1 /\
        Forall has_advertiser_columns valid_rows /\
        (forall adv, adv ∈ adv_timezone.*1 <->
           adv ∈ acc.*1 \/ exists row, row ∈ valid_rows /\ row !! _ADV_ID = Some adv) /\
        (forall adv, (forall row, row ∈ valid_rows -> row !! _ADV_ID <> Some adv) ->
           PyDict.get adv_timezone adv = PyDict.get acc adv) /\
        (forall before row after adv tz,
           valid_rows = (before ++ row :: after)%list ->
           row !! _ADV_ID = Some adv -> row !! _ADV_TIME_ZONE = Some tz ->
           (forall row', row' ∈ after -> row' !! _ADV_ID <> Some adv) ->
           PyDict.get adv_timezone adv = Some tz)
    | Raise e =>
        exists row, row ∈ valid_rows /\ ~ has_advertiser_columns row /\
                    (e = KeyError _ADV_TIME_ZONE \/ e = KeyError _ADV_ID)
    end.
Proof.
  induction valid_rows as [|r rest IH]; intros acc Hnd; cbn [adv_timezone_from].
  - split; [exact Hnd|]. split; [constructor|]. split; [|split].
    + intros adv. split; [auto | intros [H | (row & Hin & _)]; [exact H | inversion Hin]].
    + reflexivity.
    + intros [|? ?] ? ? ? ? Heq; discriminate.
  - unfold dict_getitem. unfold_bind.
    destruct (r !! _ADV_TIME_ZONE) as [tz0|] eqn:Htz.
    2:{ exists r. split; [left|]. split; [|auto].
        intros [[x Hx] _]. congruence. }
    destruct (r !! _ADV_ID) as [adv0|] eqn:Hadv.
    2:{ exists r. split; [left|]. split; [|auto].
        intros [_ [x Hx]]. congruence. }
    specialize (IH (PyDict.setitem acc adv0 tz0) (setitem_NoDup _ _ _ Hnd)).
    destruct (adv_timezone_from (PyDict.setitem acc adv0 tz0) rest) as [atz|e].
    + destruct IH as (Hn & Hcols & Hkeys & Hkeep & Hlast).
      split; [exact Hn|]. split; [|split; [|split]].
      * constructor; [|exact Hcols]. split; eauto.
      * intros adv. rewrite Hkeys, setitem_keys. split.
        -- intros [[H | ->] | (row & Hin & Hrow)]; [auto | |].
           ++ right. exists r. split; [left | exact Hadv].
           ++ right. exists row. split; [right; exact Hin | exact Hrow].
        -- intros [H | (row & Hin & Hrow)]; [auto|].
           apply elem_of_cons in Hin as [-> | Hin].
           ++ left. right. congruence.
           ++ right. eauto.
      * intros adv Hno. rewrite Hkeep.
        -- apply get_setitem_ne. intros ->. apply (Hno r); [left | exact Hadv].
        -- intros row Hin. apply Hno. right. exact Hin.
      * intros [|b before] row after adv tz Heq Hrow Hrtz Hafter;
          simpl in Heq; injection Heq as -> ->.
        -- rewrite (Hkeep adv Hafter).
           assert (adv0 = adv) as -> by congruence.
           assert (tz0 = tz) as -> by congruence.
           apply get_setitem_eq.
        -- eapply Hlast; eauto.
    + destruct IH as (row & Hin & Hrow & He).
      exists row. split; [right; exact Hin | auto].
Qed.

(** X24: the first loop of [create_reports].  When every valid row has the
    two advertiser columns, the loop maps every advertiser of the rows, once,
    to the timezone of the last row of that advertiser; otherwise it raises
    [KeyError] for one of the two column names. *)
Theorem adv_timezone_last_row (valid_rows : list (gmap string string)) :
  match adv_timezone_from [] valid_rows with
  | Ok adv_timezone =>
      NoDup adv_timezone.*1 /\
      Forall has_advertiser_columns valid_rows /\
      (forall adv, adv ∈ adv_timezone.*1 <->
         exists row, row ∈ valid_rows /\ row !! _ADV_ID = Some adv) /\
      (forall before row after adv tz,
         valid_rows = (before ++ row :: after)%list ->
         row !! _ADV_ID = Some adv -> row !! _ADV_TIME_ZONE = Some tz ->
         (forall row', row' ∈ after -> row' !! _ADV_ID <> Some adv) ->
         PyDict.get adv_timezone adv = Some tz)
  | Raise e =>
      exists row, row ∈ valid_rows /\ ~ has_advertiser_columns row /\
                  (e = KeyError _ADV_TIME_ZONE \/ e = KeyError _ADV_ID)
  end.
Proof.
  pose proof (adv_timezone_from_spec valid_rows [] NoDup_nil_2) as H.
  destruct (adv_timezone_from [] valid_rows) as [atz|e]; [|exact H].
  destruct H as (Hn & Hcols & Hkeys & _ & Hlast).
  split; [exact Hn|]. split; [exact Hcols|]. split; [|exact Hlast].
  intros adv. rewrite (Hkeys adv).
  split; [intros [H | H]; [inversion H | exact H] | auto].
Qed.

(** ** [create_reports] *)

Lemma create_each_run (svc : Service) (report_start_time report_end_time : Z)
    (filters : list (string * list (gmap string string))) :
  forall w, exists queries w',
    create_each svc report_start_time report_end_time filters w =
      Returned queries w' /\
    length queries = length filters /\
    trace w' = (trace w ++ (EvCall "queries.createquery" <$> filters.*1))%list.
Proof.
  induction filters as [|[tz g] filters IH]; intros w.
  - exists [], w. simpl. rewrite app_nil_r. repeat split.
  - cbn [create_each]. unfold _create_report, mbind, M_bind, call, mret, M_ret.
    destruct (IH (MkWorld (clock w + latency svc (calls w)) (S (calls w)) (draws w)
                          (trace w ++ [EvCall "queries.createquery" tz])))
      as (queries & w' & Hrun & Hlen & Htrace).
    unfold mbind, M_bind, mret, M_ret in Hrun. rewrite Hrun.
    eexists _, w'. split; [reflexivity|]. split; [simpl; lia|].
    rewrite Htrace. simpl. rewrite <- app_assoc. reflexivity.
Qed.

(** X20: [create_reports] creates one query per timezone.  When the
    timezone report has its valid rows and every row has the two advertiser
    columns, the call sends exactly one creation request for each timezone
    of the advertisers, no timezone twice, and returns as many query ids as
    it sent requests. *)
Theorem create_reports_one_query_per_timezone (svc : Service)
    (timezone_report_data : string) (report_start_time report_end_time : Z)
    (w : World) (valid_rows : list (gmap string string))
    (adv_timezone : list (string * string)) :
  util.get_valid_rows timezone_report_data = Ok valid_rows ->
  adv_timezone_from [] valid_rows = Ok adv_timezone ->
  exists queries w' timezones,
    create_reports svc timezone_report_data report_start_time report_end_time w =
      Returned queries w' /\
    trace w' = (trace w ++ (EvCall "queries.createquery" <$> timezones))%list /\
    length queries = length timezones /\
    NoDup timezones /\
    forall t, t ∈ timezones <-> t ∈ adv_timezone.*2.
Proof.
  intros Hrows Hadv. unfold create_reports, mbind, M_bind, lift.
  rewrite Hrows, Hadv.
  destruct (create_each_run svc report_start_time report_end_time
              (_get_query_filters adv_timezone) w)
    as (queries & w' & Hrun & Hlen & Htrace).
  destruct (get_query_filters_from_spec adv_timezone [] NoDup_nil_2)
    as (Hnd & _ & Hkeys & _).
  exists queries, w', (_get_query_filters adv_timezone).*1.
  rewrite length_fmap. repeat split; auto.
  - intros H. apply (Hkeys t) in H as [H | H]; [inversion H | exact H].
  - intros H. apply (Hkeys t). auto.
Qed.

Lemma create_reports_one_query_per_timezone_witness :
  exists queries w' timezones,
    create_reports completed_jobs timezone_report 0 1 world0 = Returned queries w' /\
    trace w' = (trace world0 ++ (EvCall "queries.createquery" <$> timezones))%list /\
    length queries = length timezones /\
    NoDup timezones /\
    forall t, t ∈ timezones <->
      t ∈ [ ("11", "Pacific/Auckland"); ("22", "Europe/Paris");
            ("33", "Pacific/Auckland") ].*2.
Proof.
  eapply (create_reports_one_query_per_timezone completed_jobs timezone_report 0 1 world0).
  - vm_compute. reflexivity.
  - vm_compute. reflexivity.
Defined.

(** The timezone report of the example leads to two queries. *)
Example create_reports_two_queries :
  create_reports completed_jobs timezone_report 0 1 world0 =
    Returned [ "q1"; "q1" ]
      (MkWorld 2 2 0 [ EvCall "queries.createquery" "Pacific/Auckland";
                       EvCall "queries.createquery" "Europe/Paris" ]).
Proof. vm_compute. reflexivity. Qed.

End dv360_reports.
